(** * coveralls-python: the VCS context resolver and the submission orchestrator

    A shallow embedding of [coveralls/git.py] and [coveralls/cli.py].

    Python values are modelled as the code has them: a [str] is a sequence of
    Unicode code points, [bytes] a sequence of bytes, [os.environ] a finite map
    from names to strings, [Optional[str]] an [option].  Effects (reads of the
    environment, child processes, log calls, calls into the [Coveralls] object)
    are recorded in a trace; exceptions are results of a small error monad, so
    that [try]/[except] clauses can be modelled with the classes they catch. *)

From Stdlib Require Import ZArith NArith List String Ascii Bool.
From Stdlib.Strings Require Import Byte.
From stdpp Require Import base option list gmap strings.

Open Scope string_scope.
Open Scope list_scope.

(** ** Python built-ins used by the two modules *)

Module Py.

(** A Python [str]: its code points.  [bytes]: its bytes. *)
Abbreviation str := (list N) (only parsing).
Abbreviation bytes := (list Byte.byte) (only parsing).

(** A [str] literal of the source, all of which are ASCII. *)
Definition lit (s : string) : str :=
  List.map N_of_ascii (list_ascii_of_string s).

(** Truth value of an [Optional[str]]: [None] and [''] are false. *)
Definition truthy (o : option str) : bool :=
  match o with
  | Some (_ :: _) => true
  | _ => false
  end.

(** [str.isspace] on one code point, the set [str.strip()] and [str.split()]
    remove (CPython's [_PyUnicode_IsWhitespace]). *)
Definition isspace (c : N) : bool :=
  ((9 <=? c) && (c <=? 13) || (28 <=? c) && (c <=? 32)
   || (c =? 133) || (c =? 160) || (c =? 5760)
   || (8192 <=? c) && (c <=? 8202)
   || (c =? 8232) || (c =? 8233) || (c =? 8239) || (c =? 8287)
   || (c =? 12288))%N.

Fixpoint lstrip (s : str) : str :=
  match s with
  | c :: s' => if isspace c then lstrip s' else s
  | [] => []
  end.

Definition rstrip (s : str) : str := rev (lstrip (rev s)).

(** [s.strip()] *)
Definition strip (s : str) : str := rstrip (lstrip s).

(** [s.startswith(p)] *)
Fixpoint startswith (p s : str) : bool :=
  match p, s with
  | [], _ => true
  | a :: p', b :: s' => (a =? b)%N && startswith p' s'
  | _ :: _, [] => false
  end.

(** [p in s] for two strings *)
Fixpoint contains (p s : str) : bool :=
  startswith p s ||
  match s with
  | [] => false
  | _ :: s' => contains p s'
  end.

(** [s.split(sep, maxsplit)] for a one-character separator; [cur] holds the
    current field, reversed. *)
Fixpoint split_sep (sep : N) (maxsplit : nat) (cur s : str) : list str :=
  match s with
  | [] => [rev cur]
  | c :: s' =>
      match maxsplit with
      | O => [rev cur ++ s]
      | S m =>
          if (c =? sep)%N then rev cur :: split_sep sep m [] s'
          else split_sep sep maxsplit (c :: cur) s'
      end
  end.

(** [s.split()]: fields separated by runs of whitespace, no empty field. *)
Fixpoint split_ws (cur s : str) : list str :=
  match s with
  | [] => match cur with [] => [] | _ => [rev cur] end
  | c :: s' =>
      if isspace c
      then match cur with
           | [] => split_ws [] s'
           | _ => rev cur :: split_ws [] s'
           end
      else split_ws (c :: cur) s'
  end.

(** Line boundaries of [str.splitlines]. *)
Definition is_linebreak (c : N) : bool :=
  ((10 <=? c) && (c <=? 13) || (28 <=? c) && (c <=? 30)
   || (c =? 133) || (c =? 8232) || (c =? 8233))%N.

(** [s.splitlines()]: the line breaks are dropped, ["\r\n"] counts once, and
    a final line break opens no empty last line. *)
Fixpoint splitlines_from (cur s : str) : list str :=
  match s with
  | [] => match cur with [] => [] | _ => [rev cur] end
  | c :: s' =>
      if is_linebreak c
      then rev cur ::
           match s' with
           | d :: s'' =>
               if (c =? 13)%N && (d =? 10)%N
               then splitlines_from [] s''
               else splitlines_from [] s'
           | [] => []
           end
      else splitlines_from (c :: cur) s'
  end.

Definition splitlines (s : str) : list str := splitlines_from [] s.

(** *** [bytes.decode('utf-8')], strict *)

Definition is_cont (b : N) : bool := ((128 <=? b) && (b <=? 191))%N.

(** The payload of a continuation byte. *)
Definition low6 (b : N) : N := N.land b 63.

(** Decoding, one scalar value at a time; [None] is [UnicodeDecodeError].
    Over-long forms, surrogates and values above U+10FFFF are rejected, as
    CPython does.  [fuel] bounds the number of scalar values. *)
Fixpoint decode_from (fuel : nat) (bs : list N) : option str :=
  match fuel with
  | O => match bs with [] => Some [] | _ => None end
  | S fuel' =>
      match bs with
      | [] => Some []
      | b0 :: r0 =>
          if (b0 <? 128)%N then cons b0 <$> decode_from fuel' r0
          else if ((194 <=? b0) && (b0 <=? 223))%N then
            match r0 with
            | b1 :: r1 =>
                if is_cont b1
                then cons (N.lor (N.shiftl (N.land b0 31) 6) (low6 b1))
                       <$> decode_from fuel' r1
                else None
            | _ => None
            end
          else if ((224 <=? b0) && (b0 <=? 239))%N then
            match r0 with
            | b1 :: b2 :: r2 =>
                if is_cont b1 && is_cont b2
                   && negb ((b0 =? 224) && (b1 <? 160))%N
                   && negb ((b0 =? 237) && (160 <=? b1))%N
                then cons (N.lor (N.shiftl (N.land b0 15) 12)
                             (N.lor (N.shiftl (low6 b1) 6) (low6 b2)))
                       <$> decode_from fuel' r2
                else None
            | _ => None
            end
          else if ((240 <=? b0) && (b0 <=? 244))%N then
            match r0 with
            | b1 :: b2 :: b3 :: r3 =>
                if is_cont b1 && is_cont b2 && is_cont b3
                   && negb ((b0 =? 240) && (b1 <? 144))%N
                   && negb ((b0 =? 244) && (144 <=? b1))%N
                then cons (N.lor (N.shiftl (N.land b0 7) 18)
                             (N.lor (N.shiftl (low6 b1) 12)
                                (N.lor (N.shiftl (low6 b2) 6) (low6 b3))))
                       <$> decode_from fuel' r3
                else None
            | _ => None
            end
          else None
      end
  end.

(** [b.decode('utf-8')]: every scalar value takes at least one byte, so the
    length of the input is fuel enough. *)
Definition decode_utf8 (b : bytes) : option str :=
  decode_from (length b) (List.map Byte.to_N b).

(** [bytes] of an ASCII literal, for examples. *)
Definition blit (s : string) : bytes := list_byte_of_string s.

End Py.

(** ** Exceptions, results and the trace monad *)

Module Eff.
Import Py.

(** Modelled from the spec: the class [CoverallsException], declared in
    [coveralls/exception.py], which is not among the sources.  By the error
    taxonomy of the specification the failure of a VCS command is an error of
    its own kind, recovered where it occurs: the class is taken as derived
    from [Exception] and unrelated to [OSError], and it carries the exception
    it was raised [from].

    The other constructors are the classes of Python that the two modules
    raise, catch or let through.  [OSError] stands for the class and its
    subclasses ([FileNotFoundError], [PermissionError]); [OtherException] for
    any further class derived from [Exception]; [OtherBaseException] for a
    class derived from [BaseException] only, such as [GeneratorExit]. *)
Inductive exn : Type :=
| CalledProcessError (returncode : Z) (out err : bytes)
| CoverallsException (cause : exn)
| OSError (errno : Z)
| UnicodeDecodeError
| IndexError
| PackageNotFoundError
| OtherException (cls : string)
| KeyboardInterrupt
| SystemExit (status : Z)
| OtherBaseException (cls : string).

(** [isinstance(e, Exception)] *)
Definition is_Exception (e : exn) : bool :=
  match e with
  | KeyboardInterrupt | SystemExit _ | OtherBaseException _ => false
  | _ => true
  end.

Definition is_KeyboardInterrupt (e : exn) : bool :=
  match e with KeyboardInterrupt => true | _ => false end.

Definition is_CalledProcessError (e : exn) : bool :=
  match e with CalledProcessError _ _ _ => true | _ => false end.

Definition is_CoverallsException (e : exn) : bool :=
  match e with CoverallsException _ => true | _ => false end.

Definition is_OSError (e : exn) : bool :=
  match e with OSError _ => true | _ => false end.

(** What a call gives back: a value, or an exception on its way up. *)
Inductive result (A : Type) : Type :=
| Ok (a : A)
| Raise (e : exn).
Arguments Ok {A} a.
Arguments Raise {A} e.

(** A computation: the events it performed, in order, and its result.  The
    world it reads (environment, child processes, collaborators) does not
    change during a run, so a writer is enough. *)
Definition M (E A : Type) : Type := (list E * result A)%type.

Definition ret {E A} (a : A) : M E A := ([], Ok a).

Definition raise {E A} (e : exn) : M E A := ([], Raise e).

Definition emit {E} (ev : E) : M E unit := ([ev], Ok tt).

Definition bind {E A B} (c : M E A) (k : A -> M E B) : M E B :=
  match c with
  | (t, Ok a) => let '(t', r) := k a in (t ++ t', r)
  | (t, Raise e) => (t, Raise e)
  end.

Notation "x <- c ;; k" := (bind c (fun x => k))
  (at level 100, c at next level, right associativity).
Notation "c ;;; k" := (bind c (fun _ => k))
  (at level 100, right associativity).

(** [try: body / except <classes> as e: handler e]; an exception of another
    class goes through. *)
Definition try_except {E A} (body : M E A) (catches : exn -> bool)
    (handler : exn -> M E A) : M E A :=
  match body with
  | (t, Ok a) => (t, Ok a)
  | (t, Raise e) =>
      if catches e
      then let '(t', r) := handler e in (t ++ t', r)
      else (t, Raise e)
  end.

Definition trace {E A} (c : M E A) : list E := fst c.
Definition outcome {E A} (c : M E A) : result A := snd c.

(** [l[i]] *)
Definition getitem {E A} (l : list A) (i : nat) : M E A :=
  match nth_error l i with
  | Some x => ret x
  | None => raise IndexError
  end.

(** [l[-1]] *)
Definition getitem_last {E A} (l : list A) : M E A :=
  match rev l with
  | x :: _ => ret x
  | [] => raise IndexError
  end.

(** [a or b] on two expressions of type [Optional[str]]: [b] is evaluated
    only when [a] is false. *)
Definition por {E} (a b : M E (option str)) : M E (option str) :=
  x <- a ;; if truthy x then ret x else b.

(** [all(values)] for [Optional[str]] values *)
Definition all_truthy (l : list (option str)) : bool := forallb truthy l.

End Eff.

(** ** [coveralls/git.py] *)

Module Git.
Import Py Eff.

(** What [subprocess.run(..., check=True, capture_output=True)] returns. *)
Record CompletedProcess : Type := {
  stdout : bytes;
  stderr : bytes
}.

(** What becomes of a command handed to [subprocess.run]: it runs and exits
    with status zero; it runs and exits with another status; it cannot be
    started (no such program, no permission). *)
Inductive spawned : Type :=
| Completed (cp : CompletedProcess)
| Failed (returncode : Z) (out err : bytes)
| NotStarted (errno : Z).

Inductive event : Type :=
| EnvGet (name : string)                      (* os.environ.get(name) *)
| Run (args : list str)                       (* subprocess.run(args, ...) *)
| LogWarning (msg : string) (exc_info : exn)  (* log.warning(msg, exc_info=ex) *).

(** The [head] dictionary and one entry of [remotes]. *)
Record Head : Type := {
  id : option str;
  author_name : option str;
  author_email : option str;
  committer_name : option str;
  committer_email : option str;
  message : option str
}.

Record Remote : Type := {
  name : option str;
  url : option str
}.

(** The value under the ['git'] key. *)
Record GitData : Type := {
  branch : option str;
  head : Head;
  remotes : list Remote
}.

(** What [git_info] returns: [{}] or [{'git': {...}}]. *)
Inductive info : Type :=
| EmptyDict
| GitDict (git : GitData).

(** [head.values()], in insertion order *)
Definition head_values (h : Head) : list (option str) :=
  [id h; author_name h; author_email h; committer_name h; committer_email h;
   message h].

Definition failed_collecting : string :=
  "Failed collecting git data. Are you running coveralls inside a git repository? Is git installed?".

Section World.

(** The process environment, and what becomes of each command.  No command
    is run twice in one call of [git_info], so a function of the arguments
    covers every behaviour of the collaborator. *)
Variable environ : gmap string (list N).
Variable spawn : list str -> spawned.

Definition os_environ_get (key : string) : M event (option str) :=
  emit (EnvGet key) ;;; ret (environ !! key).

(** [subprocess.run(list(args), check=True, capture_output=True)]: with
    [check=True] a non-zero status raises [CalledProcessError]; a program
    that cannot be started raises an [OSError]. *)
Definition subprocess_run (args : list str) : M event CompletedProcess :=
  emit (Run args) ;;;
  match spawn args with
  | Completed cp => ret cp
  | Failed rc out err => raise (CalledProcessError rc out err)
  | NotStarted errno => raise (OSError errno)
  end.

Definition decode (b : bytes) : M event str :=
  match decode_utf8 b with
  | Some s => ret s
  | None => raise UnicodeDecodeError
  end.

Definition run_command (args : list str) : M event str :=
  cmd <- try_except (subprocess_run args) is_CalledProcessError
           (fun e => raise (CoverallsException e)) ;;
  s <- decode (stdout cmd) ;;
  ret (strip s).

Definition gitlog (fmt : str) : M event str :=
  run_command [lit "git"; lit "--no-pager"; lit "log"; lit "-1";
               lit "--pretty=format:" ++ fmt].

Definition get_github_branch : M event (option str) :=
  github_ref <- os_environ_get "GITHUB_REF" ;;
  match github_ref with
  | Some r =>
      if truthy github_ref
         && (startswith (lit "refs/heads/") r || startswith (lit "refs/tags/") r)
      then b <- getitem_last (split_sep 47 2 [] r) ;; ret (Some b)
      else os_environ_get "GITHUB_HEAD_REF"
  | None => os_environ_get "GITHUB_HEAD_REF"
  end.

(** The provider variables, in the order the source names them. *)
Definition ci_branch_variables : list string :=
  ["APPVEYOR_REPO_BRANCH"; "BUILDKITE_BRANCH"; "CI_BRANCH"; "CIRCLE_BRANCH";
   "GIT_BRANCH"; "TRAVIS_BRANCH"; "BRANCH_NAME"].

Definition get_ci_branch : M event (option str) :=
  por (por (por (por (por (por
    (os_environ_get "APPVEYOR_REPO_BRANCH")
    (os_environ_get "BUILDKITE_BRANCH"))
    (os_environ_get "CI_BRANCH"))
    (os_environ_get "CIRCLE_BRANCH"))
    (os_environ_get "GIT_BRANCH"))
    (os_environ_get "TRAVIS_BRANCH"))
    (os_environ_get "BRANCH_NAME").

Definition get_git_branch : M event (option str) :=
  try_except
    (b <- run_command [lit "git"; lit "rev-parse"; lit "--abbrev-ref"; lit "HEAD"] ;;
     ret (Some b))
    is_Exception
    (fun _ => ret None).

Definition git_branch : M event (option str) :=
  ga <- os_environ_get "GITHUB_ACTIONS" ;;
  if truthy ga then get_github_branch
  else por get_ci_branch get_git_branch.

(** One step of the list comprehension over the lines of [git remote -v]. *)
Definition remote_of_line (line : str) : M event Remote :=
  n <- getitem (split_ws [] line) 0 ;;
  u <- getitem (split_ws [] line) 1 ;;
  ret {| name := Some n; url := Some u |}.

Fixpoint fetch_remotes (lines : list str) : M event (list Remote) :=
  match lines with
  | [] => ret []
  | line :: rest =>
      if contains (lit "(fetch)") line
      then r <- remote_of_line line ;;
           rs <- fetch_remotes rest ;;
           ret (r :: rs)
      else fetch_remotes rest
  end.

(** The body of the [try] of [git_info]. *)
Definition git_info_try : M event GitData :=
  branch <- git_branch ;;
  i <- gitlog (lit "%H") ;;
  an <- gitlog (lit "%aN") ;;
  ae <- gitlog (lit "%ae") ;;
  cn <- gitlog (lit "%cN") ;;
  ce <- gitlog (lit "%ce") ;;
  m <- gitlog (lit "%s") ;;
  out <- run_command [lit "git"; lit "remote"; lit "-v"] ;;
  remotes <- fetch_remotes (splitlines out) ;;
  ret {| branch := branch;
         head := {| id := Some i; author_name := Some an;
                    author_email := Some ae; committer_name := Some cn;
                    committer_email := Some ce; message := Some m |};
         remotes := remotes |}.

(** The [except (CoverallsException, OSError) as ex] clause.  Its early
    [return {}] and the [return] after the [try] statement are the two
    results. *)
Definition git_info_except (ex : exn) : M event info :=
  branch <- os_environ_get "GIT_BRANCH" ;;
  i <- os_environ_get "GIT_ID" ;;
  an <- os_environ_get "GIT_AUTHOR_NAME" ;;
  ae <- os_environ_get "GIT_AUTHOR_EMAIL" ;;
  cn <- os_environ_get "GIT_COMMITTER_NAME" ;;
  ce <- os_environ_get "GIT_COMMITTER_EMAIL" ;;
  m <- os_environ_get "GIT_MESSAGE" ;;
  rn <- os_environ_get "GIT_REMOTE" ;;
  ru <- os_environ_get "GIT_URL" ;;
  let head := {| id := i; author_name := an; author_email := ae;
                 committer_name := cn; committer_email := ce; message := m |} in
  let remotes := [{| name := rn; url := ru |}] in
  if negb (all_truthy (head_values head))
  then emit (LogWarning failed_collecting ex) ;;; ret EmptyDict
  else ret (GitDict {| branch := branch; head := head; remotes := remotes |}).

Definition git_info : M event info :=
  try_except
    (g <- git_info_try ;; ret (GitDict g))
    (fun e => is_CoverallsException e || is_OSError e)
    git_info_except.

End World.

End Git.

(** ** [coveralls/cli.py] *)

Module Cli.
Import Py Eff.

(** The dictionary [docopt] builds from the usage text of the module: the
    [debug] command and the flags are booleans, an option with an argument
    is a string or [None]. *)
Record Options : Type := {
  debug : bool;
  service : option str;
  rcfile : option str;
  basedir : option str;
  output : option str;
  srcdir : option str;
  submit : option str;
  merge : option str;
  finish : bool;
  help : bool;
  verbose : bool
}.

(** A value of that dictionary. *)
Inductive optval : Type :=
| Flag (b : bool)
| Arg (v : option str).

(** [options.get(key)]; [None] for a key the dictionary does not have. *)
Definition options_get (options : Options) (key : string) : option optval :=
  if String.eqb key "debug" then Some (Flag (debug options))
  else if String.eqb key "--service" then Some (Arg (service options))
  else if String.eqb key "--rcfile" then Some (Arg (rcfile options))
  else if String.eqb key "--basedir" then Some (Arg (basedir options))
  else if String.eqb key "--output" then Some (Arg (output options))
  else if String.eqb key "--srcdir" then Some (Arg (srcdir options))
  else if String.eqb key "--submit" then Some (Arg (submit options))
  else if String.eqb key "--merge" then Some (Arg (merge options))
  else if String.eqb key "--finish" then Some (Flag (finish options))
  else if String.eqb key "--help" then Some (Flag (help options))
  else if String.eqb key "--verbose" then Some (Flag (verbose options))
  else None.

(** Truth value of what [options.get] returns. *)
Definition truthy_val (v : option optval) : bool :=
  match v with
  | Some (Flag b) => b
  | Some (Arg a) => truthy a
  | None => false
  end.

(** [options['--verbose'] = True] *)
Definition set_verbose (options : Options) : Options :=
  {| debug := debug options; service := service options;
     rcfile := rcfile options; basedir := basedir options;
     output := output options; srcdir := srcdir options;
     submit := submit options; merge := merge options;
     finish := finish options; help := help options; verbose := true |}.

(** [v or ''] *)
Definition or_empty (v : option str) : str :=
  match v with
  | Some s => if truthy v then s else []
  | None => []
  end.

Inductive level : Type := DEBUG | INFO.

(** The argument of a log call. *)
Inductive logarg : Type :=
| Text (s : string)
| Value (v : option str)
| Dict (d : gmap string (list N)).

Inductive event : Type :=
| Version                                   (* importlib.metadata.version('coveralls') *)
| Docopt (argv : option (list str)) (version : str)
| AddHandler                                (* log.addHandler(logging.StreamHandler()) *)
| SetLevel (lvl : level)                    (* log.setLevel(level) *)
| New (token_required : bool) (config_file service_name : option str)
      (base_dir src_dir : str)              (* Coveralls(...) *)
| CallMerge (path : option str)             (* coverallz.merge(path) *)
| CallWear (dry_run : bool)                 (* coverallz.wear(dry_run=...) *)
| CallSaveReport (path : option str)        (* coverallz.save_report(path) *)
| OpenRead (path : option str)              (* open(path), .read() *)
| CallSubmitReport (content : str)          (* coverallz.submit_report(content) *)
| CallParallelFinish                        (* coverallz.parallel_finish() *)
| LogInfo (a : logarg)                      (* log.info(a) *)
| LogDebug (a : logarg)                     (* log.debug(a) *)
| LogException (fmt : string) (e : exn)     (* log.exception(fmt, e) *).

Section World.

(** The collaborators of the module.  [coveralls/api.py] is not among the
    sources: the [Coveralls] class is taken as a parameter, an object type
    with its constructor and the five methods the module calls, each of which
    returns or raises.  So are the package metadata, [docopt] and the file
    system.  A path is passed on as the options dictionary holds it, a string
    or [None].  A run calls at most one method of the object it has built,
    so what the object keeps from one call to the next does not show. *)
Variable Obj : Type.
Variable Coveralls :
  bool -> option str -> option str -> str -> str -> result Obj.
Variable api_merge : Obj -> option str -> result unit.
Variable api_wear : Obj -> bool -> result (gmap string (list N)).
Variable api_save_report : Obj -> option str -> result unit.
Variable api_submit_report : Obj -> str -> result unit.
Variable api_parallel_finish : Obj -> result unit.
Variable metadata_version : result str.
Variable docopt : option (list str) -> str -> result Options.
Variable read_file : option str -> result str.

Definition call {A} (ev : event) (r : result A) : M event A :=
  emit ev ;;; ([], r).

Definition log_info (s : string) : M event unit := emit (LogInfo (Text s)).

Definition handle_debug (coverallz : Obj) : M event unit :=
  log_info "Testing coveralls-python..." ;;;
  _ <- call (CallWear true) (api_wear coverallz true) ;;
  ret tt.

Definition handle_output (coverallz : Obj) (output_file : option str)
    : M event unit :=
  log_info "Write coverage report to file..." ;;;
  call (CallSaveReport output_file) (api_save_report coverallz output_file).

Definition handle_submit (coverallz : Obj) (submit_file : option str)
    : M event unit :=
  content <- call (OpenRead submit_file) (read_file submit_file) ;;
  call (CallSubmitReport content) (api_submit_report coverallz content).

Definition handle_finish (coverallz : Obj) : M event unit :=
  log_info "Finishing parallel jobs..." ;;;
  call CallParallelFinish (api_parallel_finish coverallz) ;;;
  log_info "Done".

Definition handle_default (coverallz : Obj) : M event unit :=
  log_info "Submitting coverage to coveralls.io..." ;;;
  result <- call (CallWear false) (api_wear coverallz false) ;;
  log_info "Coverage submitted!" ;;;
  emit (LogDebug (Dict result)) ;;;
  if decide (result = ∅) then ret tt
  else emit (LogInfo (Value (result !! "message"))) ;;;
       emit (LogInfo (Value (result !! "url"))).

(** [token_required = not options['debug'] and not options['--output']] *)
Definition token_required (options : Options) : bool :=
  negb (debug options) && negb (truthy (output options)).

Definition setup_coveralls (options : Options) : M event Obj :=
  let level := if verbose options then DEBUG else INFO in
  emit AddHandler ;;;
  emit (SetLevel level) ;;;
  let base_dir := or_empty (basedir options) in
  let src_dir := or_empty (srcdir options) in
  call (New (token_required options) (rcfile options) (service options)
          base_dir src_dir)
       (Coveralls (token_required options) (rcfile options) (service options)
          base_dir src_dir).

(** The [action_handlers] dictionary, in insertion order. *)
Definition action_handlers (options : Options) (coverallz : Obj)
    : list (string * M event unit) :=
  [("--merge", call (CallMerge (merge options))
                 (api_merge coverallz (merge options)));
   ("debug", handle_debug coverallz);
   ("--output", handle_output coverallz (output options));
   ("--submit", handle_submit coverallz (submit options));
   ("--finish", handle_finish coverallz)].

(** The [for] loop over the dictionary and the statement after it: the
    handler of the first action whose option is true runs and [main] returns;
    when the loop ends without one, [otherwise] runs. *)
Fixpoint first_action (options : Options) (handlers : list (string * M event unit))
    (otherwise : M event unit) : M event unit :=
  match handlers with
  | [] => otherwise
  | (action, handler) :: rest =>
      if truthy_val (options_get options action) then handler
      else first_action options rest otherwise
  end.

(** The body of the [try] of [main]. *)
Definition main_try (options : Options) : M event unit :=
  coverallz <- setup_coveralls options ;;
  first_action options (action_handlers options coverallz)
    (handle_default coverallz).

(** The two [except] clauses of [main]; [sys.exit(1)] raises
    [SystemExit(1)]. *)
Definition main_except (e : exn) : M event unit :=
  if is_KeyboardInterrupt e then log_info "Aborted"
  else emit (LogException "Error running coveralls: %s" e) ;;;
       raise (SystemExit 1).

Definition main (argv : option (list str)) : M event unit :=
  version <- call Version metadata_version ;;
  options <- call (Docopt argv version) (docopt argv version) ;;
  let options := if debug options then set_verbose options else options in
  try_except (main_try options)
    (fun e => is_KeyboardInterrupt e || is_Exception e)
    main_except.

End World.

(** The status the interpreter exits with when [main] is the last thing the
    process does: zero after a normal return, the status of a [SystemExit],
    one after any other exception that nobody caught. *)
Definition exit_status (r : result unit) : Z :=
  match r with
  | Ok _ => 0
  | Raise (SystemExit n) => n
  | Raise _ => 1
  end.

End Cli.

(** ** The specification's readings, and the worlds of the examples *)

Module Spec.
Import Py Eff Git.

(** A string that neither starts nor ends with whitespace. *)
Definition head_nonspace (r : str) : Prop :=
  match r with
  | c :: _ => isspace c = false
  | [] => True
  end.

Definition last_nonspace (r : str) : Prop := head_nonspace (rev r).

(** [r] is [s] without its leading and its trailing whitespace. *)
Definition stripped_both (s r : str) : Prop :=
  exists pre post,
    s = pre ++ r ++ post /\
    forallb isspace pre = true /\ forallb isspace post = true /\
    head_nonspace r /\ last_nonspace r.

(** [r] is [s] without its trailing whitespace, and nothing else removed. *)
Definition stripped_right (s r : str) : Prop :=
  exists post,
    s = r ++ post /\ forallb isspace post = true /\ last_nonspace r.

(** "First non-empty wins": the value of the first variable of the list
    that is set to a non-empty string. *)
Fixpoint first_nonempty (environ : gmap string (list N)) (vars : list string)
    : option str :=
  match vars with
  | [] => None
  | k :: rest =>
      if truthy (environ !! k) then environ !! k
      else first_nonempty environ rest
  end.

(** "No further providers consulted": the variables read, up to and
    including the first one that is set to a non-empty string. *)
Fixpoint consulted (environ : gmap string (list N)) (vars : list string)
    : list string :=
  match vars with
  | [] => []
  | k :: rest =>
      k :: (if truthy (environ !! k) then [] else consulted environ rest)
  end.

(** The value of [get(k1) or get(k2) or ...]: the first value that is true,
    and the last value when none is. *)
Fixpoint or_chain (environ : gmap string (list N)) (vars : list string)
    : option str :=
  match vars with
  | [] => None
  | k :: rest =>
      if truthy (environ !! k) then environ !! k
      else match rest with
           | [] => environ !! k
           | _ :: _ => or_chain environ rest
           end
  end.

(** The commands of the head stage of [git_info], in the order it issues
    them: the six single-field log queries and the listing of the remotes. *)
Definition log_query (fmt : str) : list str :=
  [lit "git"; lit "--no-pager"; lit "log"; lit "-1";
   lit "--pretty=format:" ++ fmt].

Definition remote_query : list str := [lit "git"; lit "remote"; lit "-v"].

(** The command of the branch stage. *)
Definition branch_query : list str :=
  [lit "git"; lit "rev-parse"; lit "--abbrev-ref"; lit "HEAD"].

Definition head_queries : list (list str) :=
  [log_query (lit "%H"); log_query (lit "%aN"); log_query (lit "%ae");
   log_query (lit "%cN"); log_query (lit "%ce"); log_query (lit "%s");
   remote_query].

(** "A VCS command invocation fails": going through the commands in order,
    one exits with a non-zero status or cannot be started, the ones before
    it having completed with an output that decodes (a command after an
    output that does not decode is never issued). *)
Fixpoint reaches_failure (spawn : list str -> spawned)
    (queries : list (list str)) : bool :=
  match queries with
  | [] => false
  | q :: rest =>
      match spawn q with
      | Completed cp =>
          match decode_utf8 (stdout cp) with
          | Some _ => reaches_failure spawn rest
          | None => false
          end
      | Failed _ _ _ | NotStarted _ => true
      end
  end.

Definition vcs_fails (spawn : list str -> spawned) : bool :=
  reaches_failure spawn head_queries.

(** The variables of the fallback: the six of the head, and all eight. *)
Definition head_variables : list string :=
  ["GIT_ID"; "GIT_AUTHOR_NAME"; "GIT_AUTHOR_EMAIL"; "GIT_COMMITTER_NAME";
   "GIT_COMMITTER_EMAIL"; "GIT_MESSAGE"].

Definition fallback_variables : list string :=
  head_variables ++ ["GIT_REMOTE"; "GIT_URL"].

Definition is_warning (ev : event) : bool :=
  match ev with LogWarning _ _ => true | _ => false end.

(** The output of a command that completed is valid UTF-8. *)
Definition decodes (r : spawned) : bool :=
  match r with
  | Completed cp =>
      match decode_utf8 (stdout cp) with Some _ => true | None => false end
  | Failed _ _ _ | NotStarted _ => true
  end.

(** A line of the remote listing that is no fetch line, or has the two
    fields that [git remote -v] prints before [(fetch)]. *)
Definition fetch_line_ok (line : str) : bool :=
  negb (contains (lit "(fetch)") line)
  || (2 <=? length (split_ws [] line))%nat.

Definition remote_listing_ok (r : spawned) : bool :=
  match r with
  | Completed cp =>
      match decode_utf8 (stdout cp) with
      | Some s => forallb fetch_line_ok (splitlines (strip s))
      | None => true
      end
  | Failed _ _ _ | NotStarted _ => true
  end.

(** Every command of the head stage fails or completes with an output in
    the form [git] prints it. *)
Definition wellformed_output (spawn : list str -> spawned) : bool :=
  forallb (fun q => decodes (spawn q)) head_queries
  && remote_listing_ok (spawn remote_query).

(** A variable of the fallback is read. *)
Definition is_fallback_read (ev : event) : bool :=
  match ev with
  | EnvGet k => existsb (String.eqb k) fallback_variables
  | _ => false
  end.

(** *** Worlds of the examples *)

(** No [git] on the machine: no command can be started. *)
Definition no_git (_ : list str) : spawned := NotStarted 2.

(** A command that prints [" abc"] and a line feed. *)
Definition prints_padded (_ : list str) : spawned :=
  Completed {| stdout := [x20; x61; x62; x63; x0a]; stderr := [] |}.

(** A repository whose author name is stored in Latin-1 ([Ren\xe9]); the
    other commands print [main]. *)
Definition latin1_author (args : list str) : spawned :=
  if decide (args = log_query (lit "%aN"))
  then Completed {| stdout := [x52; x65; x6e; xe9]; stderr := [] |}
  else Completed {| stdout := blit "main"; stderr := [] |}.

(** A checkout in which the query of the branch exits with status 128; the
    other commands print [main]. *)
Definition branch_query_fails (args : list str) : spawned :=
  if decide (args = branch_query)
  then Failed 128 [] []
  else Completed {| stdout := blit "main"; stderr := [] |}.

(** A listing of the remotes with a fetch line of one field. *)
Definition short_remote_line (args : list str) : spawned :=
  if decide (args = remote_query)
  then Completed {| stdout := blit "(fetch)"; stderr := [] |}
  else Completed {| stdout := blit "main"; stderr := [] |}.

Definition env_of (l : list (string * string)) : gmap string (list N) :=
  list_to_map (List.map (fun kv => (fst kv, lit (snd kv))) l).

Definition env_circle_travis : gmap string (list N) :=
  env_of [("CIRCLE_BRANCH", "dev"); ("TRAVIS_BRANCH", "main")].

Definition env_github_heads : gmap string (list N) :=
  env_of [("GITHUB_ACTIONS", "true"); ("GITHUB_REF", "refs/heads/main")].

Definition env_github_tags : gmap string (list N) :=
  env_of [("GITHUB_ACTIONS", "true"); ("GITHUB_REF", "refs/tags/v1.0")].

Definition env_github_pull : gmap string (list N) :=
  env_of [("GITHUB_ACTIONS", "true"); ("GITHUB_HEAD_REF", "feature-x")].

(** The six head variables, without [GIT_REMOTE] and [GIT_URL]. *)
Definition env_head_only : gmap string (list N) :=
  env_of [("GIT_ID", "5e837ce92220be64821128a70f6093f836dd2c05");
          ("GIT_AUTHOR_NAME", "Wil Gieseler");
          ("GIT_AUTHOR_EMAIL", "wil@example.com");
          ("GIT_COMMITTER_NAME", "Wil Gieseler");
          ("GIT_COMMITTER_EMAIL", "wil@example.com");
          ("GIT_MESSAGE", "depend on simplecov >= 0.7")].

(** All eight. *)
Definition env_all_eight : gmap string (list N) :=
  env_of [("GIT_ID", "5e837ce92220be64821128a70f6093f836dd2c05");
          ("GIT_AUTHOR_NAME", "Wil Gieseler");
          ("GIT_AUTHOR_EMAIL", "wil@example.com");
          ("GIT_COMMITTER_NAME", "Wil Gieseler");
          ("GIT_COMMITTER_EMAIL", "wil@example.com");
          ("GIT_MESSAGE", "depend on simplecov >= 0.7");
          ("GIT_REMOTE", "origin");
          ("GIT_URL", "https://github.com/lemurheavy/coveralls-ruby.git")].

(** All but the message. *)
Definition env_no_message : gmap string (list N) :=
  env_of [("GIT_ID", "5e837ce92220be64821128a70f6093f836dd2c05");
          ("GIT_AUTHOR_NAME", "Wil Gieseler");
          ("GIT_AUTHOR_EMAIL", "wil@example.com");
          ("GIT_COMMITTER_NAME", "Wil Gieseler");
          ("GIT_COMMITTER_EMAIL", "wil@example.com");
          ("GIT_REMOTE", "origin");
          ("GIT_URL", "https://github.com/lemurheavy/coveralls-ruby.git")].

(** *** Readings used for the rest of the module *)

(** What [run_command] returns for a command: the decoded and stripped
    output of a command that completed, nothing otherwise. *)
Definition answer (spawn : list str -> spawned) (q : list str) : option str :=
  match spawn q with
  | Completed cp => strip <$> decode_utf8 (stdout cp)
  | Failed _ _ _ | NotStarted _ => None
  end.

(** [line] is a fetch line of the remote listing. *)
Definition is_fetch_line (line : str) : bool := contains (lit "(fetch)") line.

(** The entry of a line: its first two fields. *)
Definition remote_of_fields (line : str) : Remote :=
  {| name := nth_error (split_ws [] line) 0;
     url := nth_error (split_ws [] line) 1 |}.

(** The remotes of a listing: one entry for each fetch line, in the order
    of the listing. *)
Definition listed_remotes (lines : list str) : list Remote :=
  List.map remote_of_fields (List.filter is_fetch_line lines).

Definition nonspace (c : N) : bool := negb (isspace c).

Definition is_run (ev : event) : bool :=
  match ev with Run _ => true | _ => false end.

(** A listing of two remotes, as [git remote -v] prints it; the other
    commands print [main]. *)
Definition two_remotes (args : list str) : spawned :=
  if decide (args = remote_query)
  then Completed
         {| stdout :=
              blit "origin" ++ [x09] ++ blit "https://example.com/a.git (fetch)"
              ++ [x0a]
              ++ blit "origin" ++ [x09] ++ blit "https://example.com/a.git (push)"
              ++ [x0a]
              ++ blit "fork" ++ [x09] ++ blit "git@example.com:b.git (fetch)"
              ++ [x0a]
              ++ blit "fork" ++ [x09] ++ blit "git@example.com:b.git (push)"
              ++ [x0a];
            stderr := [] |}
  else Completed {| stdout := blit "main"; stderr := [] |}.

(** The branch [feature/x] pushed under GitHub Actions. *)
Definition env_github_slash : gmap string (list N) :=
  env_of [("GITHUB_ACTIONS", "true"); ("GITHUB_REF", "refs/heads/feature/x");
          ("CIRCLE_BRANCH", "dev")].

(** Outside a repository every command exits with status 128. *)
Definition not_a_repository (_ : list str) : spawned :=
  Failed 128 [] (blit "fatal: not a git repository").

(** The eight variables, under a CI provider that names another branch. *)
Definition env_all_eight_on_circle : gmap string (list N) :=
  <["CIRCLE_BRANCH" := lit "dev"]> env_all_eight.

(** A pull request under GitHub Actions. *)
Definition env_github_pull_ref : gmap string (list N) :=
  env_of [("GITHUB_ACTIONS", "true"); ("GITHUB_REF", "refs/pull/7/merge");
          ("GITHUB_HEAD_REF", "feature-x")].

End Spec.

Module CliSpec.
Import Py Eff Cli.

(** The modes of a run, as the specification names them. *)
Inductive Mode : Type :=
  Merge | Debug | WriteFile | SubmitFile | Finish | Default.

(** "Priority order, first match wins": merge, debug, output, submit,
    finish, and the default when none of the five options is given. *)
Definition select_mode (options : Options) : Mode :=
  if truthy (merge options) then Merge
  else if debug options then Debug
  else if truthy (output options) then WriteFile
  else if truthy (submit options) then SubmitFile
  else if finish options then Finish
  else Default.

(** None of the five options is given. *)
Definition no_action (options : Options) : Prop :=
  truthy (merge options) = false /\ debug options = false /\
  truthy (output options) = false /\ truthy (submit options) = false /\
  finish options = false.

(** The first thing the handler of a mode does, by which a trace tells the
    handlers apart. *)
Definition first_event (options : Options) (mode : Mode) : event :=
  match mode with
  | Merge => CallMerge (merge options)
  | Debug => LogInfo (Text "Testing coveralls-python...")
  | WriteFile => LogInfo (Text "Write coverage report to file...")
  | SubmitFile => OpenRead (submit options)
  | Finish => LogInfo (Text "Finishing parallel jobs...")
  | Default => LogInfo (Text "Submitting coverage to coveralls.io...")
  end.

(** A report goes out to the service: [wear] without [dry_run], or
    [submit_report]. *)
Definition is_dispatch (ev : event) : bool :=
  match ev with
  | CallWear false | CallSubmitReport _ => true
  | _ => false
  end.

Definition is_log_exception (ev : event) : bool :=
  match ev with LogException _ _ => true | _ => false end.

Section Handlers.
Variable Obj : Type.
Variable api_merge : Obj -> option str -> result unit.
Variable api_wear : Obj -> bool -> result (gmap string (list N)).
Variable api_save_report : Obj -> option str -> result unit.
Variable api_submit_report : Obj -> str -> result unit.
Variable api_parallel_finish : Obj -> result unit.
Variable read_file : option str -> result str.

(** The handler of each mode. *)
Definition handler_of (options : Options) (coverallz : Obj) (mode : Mode)
    : M event unit :=
  match mode with
  | Merge => call (CallMerge (merge options))
               (api_merge coverallz (merge options))
  | Debug => handle_debug Obj api_wear coverallz
  | WriteFile => handle_output Obj api_save_report coverallz (output options)
  | SubmitFile =>
      handle_submit Obj api_submit_report read_file coverallz (submit options)
  | Finish => handle_finish Obj api_parallel_finish coverallz
  | Default => handle_default Obj api_wear coverallz
  end.

End Handlers.

(** *** Worlds of the examples *)

Definition no_options : Options :=
  {| debug := false; service := None; rcfile := Some (lit ".coveragerc");
     basedir := None; output := None; srcdir := None; submit := None;
     merge := None; finish := false; help := false; verbose := false |}.

(** [coveralls --merge=extra.json] *)
Definition options_merge : Options :=
  {| debug := false; service := None; rcfile := Some (lit ".coveragerc");
     basedir := None; output := None; srcdir := None; submit := None;
     merge := Some (lit "extra.json"); finish := false; help := false;
     verbose := false |}.

(** [coveralls debug --merge=extra.json] *)
Definition options_debug_merge : Options :=
  {| debug := true; service := None; rcfile := Some (lit ".coveragerc");
     basedir := None; output := None; srcdir := None; submit := None;
     merge := Some (lit "extra.json"); finish := false; help := false;
     verbose := false |}.

(** The answer of the service to a submission. *)
Definition job_accepted : gmap string (list N) :=
  <["message" := lit "Job #38.1"]>
    (<["url" := lit "https://coveralls.io/jobs/92059"]> ∅).

(** A world in which every collaborator does its work; [docopt] yields the
    given options. *)
Definition main_in_good_world (options : Options) (argv : option (list str))
    : M event unit :=
  main unit
    (fun _ _ _ _ _ => Ok tt) (fun _ _ => Ok tt) (fun _ _ => Ok job_accepted)
    (fun _ _ => Ok tt) (fun _ _ => Ok tt) (fun _ => Ok tt)
    (Ok (lit "4.0.1")) (fun _ _ => Ok options) (fun _ => Ok (lit "{}"))
    argv.

(** The same with a service that cannot be reached, or a user who
    interrupts the submission. *)
Definition main_when_wear_raises (e : exn) (options : Options)
    (argv : option (list str)) : M event unit :=
  main unit
    (fun _ _ _ _ _ => Ok tt) (fun _ _ => Ok tt) (fun _ _ => Raise e)
    (fun _ _ => Ok tt) (fun _ _ => Ok tt) (fun _ => Ok tt)
    (Ok (lit "4.0.1")) (fun _ _ => Ok options) (fun _ => Ok (lit "{}"))
    argv.

(** The package is run from a checkout, without installed metadata. *)
Definition main_without_metadata (options : Options)
    (argv : option (list str)) : M event unit :=
  main unit
    (fun _ _ _ _ _ => Ok tt) (fun _ _ => Ok tt) (fun _ _ => Ok job_accepted)
    (fun _ _ => Ok tt) (fun _ _ => Ok tt) (fun _ => Ok tt)
    (Raise PackageNotFoundError) (fun _ _ => Ok options)
    (fun _ => Ok (lit "{}"))
    argv.

(** *** Readings used for the rest of the module *)

(** A method of the [Coveralls] object is called. *)
Definition is_api_call (ev : event) : bool :=
  match ev with
  | CallMerge _ | CallWear _ | CallSaveReport _ | CallSubmitReport _
  | CallParallelFinish => true
  | _ => false
  end.

(** What [main] does before a handler runs: the two calls before the
    [try], and [setup_coveralls]. *)
Definition preamble (argv : option (list str)) (version : str)
    (options : Options) : list event :=
  [Version; Docopt argv version; AddHandler;
   SetLevel (if debug options || verbose options then DEBUG else INFO);
   New (token_required options) (rcfile options) (service options)
     (or_empty (basedir options)) (or_empty (srcdir options))].

(** [coveralls debug] *)
Definition options_debug : Options :=
  {| debug := true; service := None; rcfile := Some (lit ".coveragerc");
     basedir := None; output := None; srcdir := None; submit := None;
     merge := None; finish := false; help := false; verbose := false |}.

(** A world in which no token is configured: the construction of the
    object raises when the token is required. *)
Definition main_without_token (options : Options) (argv : option (list str))
    : M event unit :=
  main unit
    (fun required _ _ _ _ =>
       if required then Raise (OtherException "CoverallsException")
       else Ok tt)
    (fun _ _ => Ok tt) (fun _ _ => Ok job_accepted)
    (fun _ _ => Ok tt) (fun _ _ => Ok tt) (fun _ => Ok tt)
    (Ok (lit "4.0.1")) (fun _ _ => Ok options) (fun _ => Ok (lit "{}"))
    argv.

(** A world in which the file to submit does not exist. *)
Definition main_without_file (options : Options) (argv : option (list str))
    : M event unit :=
  main unit
    (fun _ _ _ _ _ => Ok tt) (fun _ _ => Ok tt) (fun _ _ => Ok job_accepted)
    (fun _ _ => Ok tt) (fun _ _ => Ok tt) (fun _ => Ok tt)
    (Ok (lit "4.0.1")) (fun _ _ => Ok options) (fun _ => Raise (OSError 2))
    argv.

(** [coveralls --submit=report.json] *)
Definition options_submit : Options :=
  {| debug := false; service := None; rcfile := Some (lit ".coveragerc");
     basedir := None; output := None; srcdir := None;
     submit := Some (lit "report.json"); merge := None; finish := false;
     help := false; verbose := false |}.

End CliSpec.

(** * Properties *)

(** ** Facts on the built-ins *)

Module PyFacts.
Import Py Spec.

Lemma lstrip_split (s : str) :
  exists pre, s = pre ++ lstrip s /\ forallb isspace pre = true.
Proof.
  induction s as [|c s IH]; simpl.
  - exists []. split; reflexivity.
  - destruct (isspace c) eqn:Hc.
    + destruct IH as (pre & Hs & Hpre). exists (c :: pre). simpl.
      rewrite Hc, Hpre. split; [congruence | reflexivity].
    + exists []. split; reflexivity.
Qed.

Lemma lstrip_head (s : str) : head_nonspace (lstrip s).
Proof.
  induction s as [|c s IH]; simpl; [exact I |].
  destruct (isspace c) eqn:Hc; [exact IH | exact Hc].
Qed.

Lemma forallb_rev {A} (f : A -> bool) (l : list A) :
  forallb f (rev l) = forallb f l.
Proof.
  induction l as [|a l IH]; simpl; [reflexivity |].
  rewrite forallb_app, IH. simpl. rewrite andb_true_r. apply andb_comm.
Qed.

Lemma rstrip_split (s : str) :
  exists post, s = rstrip s ++ post /\ forallb isspace post = true.
Proof.
  unfold rstrip. destruct (lstrip_split (rev s)) as (pre & Hs & Hpre).
  exists (rev pre). split.
  - rewrite <- rev_app_distr, <- Hs. symmetry. apply rev_involutive.
  - rewrite forallb_rev. exact Hpre.
Qed.

Lemma rstrip_last (s : str) : last_nonspace (rstrip s).
Proof.
  unfold last_nonspace, rstrip. rewrite rev_involutive. apply lstrip_head.
Qed.

Lemma rstrip_spec (s : str) : stripped_right s (rstrip s).
Proof.
  destruct (rstrip_split s) as (post & Hs & Hpost).
  exists post. split; [exact Hs | split; [exact Hpost | apply rstrip_last]].
Qed.

(** [s.strip()] removes exactly the whitespace at both ends. *)
Lemma strip_spec (s : str) : stripped_both s (strip s).
Proof.
  unfold strip.
  destruct (lstrip_split s) as (pre & Hs & Hpre).
  destruct (rstrip_split (lstrip s)) as (post & Hm & Hpost).
  exists pre, post. repeat split; try assumption.
  - rewrite <- Hm. exact Hs.
  - pose proof (lstrip_head s) as Hh. rewrite Hm in Hh.
    destruct (rstrip (lstrip s)) as [|c r]; [exact I | exact Hh].
  - apply rstrip_last.
Qed.

Lemma nonspace_suffix_unique (a b x y : str) :
  forallb isspace a = true -> forallb isspace b = true ->
  head_nonspace x -> head_nonspace y ->
  a ++ x = b ++ y -> x = y.
Proof.
  revert b. induction a as [|c a IH]; intros b Ha Hb Hx Hy E.
  - destruct b as [|d b]; [exact E |].
    simpl in *. destruct x as [|c x]; [discriminate |].
    injection E as -> _. apply andb_true_iff in Hb. destruct Hb as [Hb _].
    simpl in Hx. congruence.
  - destruct b as [|d b].
    + simpl in *. destruct y as [|d y]; [discriminate |].
      injection E as -> _. apply andb_true_iff in Ha. destruct Ha as [Ha _].
      simpl in Hy. congruence.
    + simpl in *. injection E as -> E.
      apply andb_true_iff in Ha, Hb. destruct Ha as [_ Ha], Hb as [_ Hb].
      exact (IH b Ha Hb Hx Hy E).
Qed.

(** Removing the trailing whitespace and nothing else has one result. *)
Lemma stripped_right_unique (s r r' : str) :
  stripped_right s r -> stripped_right s r' -> r = r'.
Proof.
  intros (post & Hs & Hpost & Hl) (post' & Hs' & Hpost' & Hl').
  assert (E : rev post ++ rev r = rev post' ++ rev r').
  { rewrite <- !rev_app_distr. congruence. }
  rewrite <- forallb_rev in Hpost, Hpost'.
  pose proof (nonspace_suffix_unique _ _ _ _ Hpost Hpost' Hl Hl' E) as Hr.
  apply (f_equal (@rev N)) in Hr. rewrite !rev_involutive in Hr. exact Hr.
Qed.

End PyFacts.

(** ** The VCS context resolver *)

Module GitProps.
Import Py Eff Git Spec PyFacts.

(** *** The monad *)

Lemma bind_ok {E A B} (t : list E) (a : A) (k : A -> M E B) :
  bind (t, Ok a) k = (t ++ trace (k a), outcome (k a)).
Proof. unfold bind. destruct (k a). reflexivity. Qed.

Lemma bind_raise {E A B} (t : list E) (e : exn) (k : A -> M E B) :
  bind (t, Raise e) k = (t, Raise e).
Proof. reflexivity. Qed.

Lemma try_caught {E A} (t : list E) (e : exn) catches (handler : exn -> M E A) :
  catches e = true ->
  try_except (t, Raise e) catches handler =
    (t ++ trace (handler e), outcome (handler e)).
Proof. intros H. unfold try_except. rewrite H. destruct (handler e). reflexivity. Qed.

Lemma try_uncaught {E A} (t : list E) (e : exn) catches (handler : exn -> M E A) :
  catches e = false ->
  try_except (t, Raise e) catches handler = (t, Raise e).
Proof. intros H. unfold try_except. rewrite H. reflexivity. Qed.

Lemma os_environ_get_eq (environ : gmap string (list N)) (key : string) :
  os_environ_get environ key = ([EnvGet key], Ok (environ !! key)).
Proof. reflexivity. Qed.

(** *** [run_command] *)

Lemma run_command_completed (spawn : list str -> spawned) (args : list str)
    (cp : CompletedProcess) (s : str) :
  spawn args = Completed cp ->
  decode_utf8 (stdout cp) = Some s ->
  run_command spawn args = ([Run args], Ok (strip s)).
Proof.
  intros Hrun Hdec. unfold run_command, subprocess_run, decode.
  cbn. rewrite Hrun. cbn. rewrite Hdec. reflexivity.
Qed.

Lemma run_command_failed (spawn : list str -> spawned) (args : list str)
    (rc : Z) (out err : bytes) :
  spawn args = Failed rc out err ->
  run_command spawn args =
    ([Run args], Raise (CoverallsException (CalledProcessError rc out err))).
Proof.
  intros Hrun. unfold run_command, subprocess_run. cbn. rewrite Hrun.
  reflexivity.
Qed.

Lemma run_command_not_started (spawn : list str -> spawned) (args : list str)
    (errno : Z) :
  spawn args = NotStarted errno ->
  run_command spawn args = ([Run args], Raise (OSError errno)).
Proof.
  intros Hrun. unfold run_command, subprocess_run. cbn. rewrite Hrun.
  reflexivity.
Qed.

Lemma run_command_undecodable (spawn : list str -> spawned) (args : list str)
    (cp : CompletedProcess) :
  spawn args = Completed cp ->
  decode_utf8 (stdout cp) = None ->
  run_command spawn args = ([Run args], Raise UnicodeDecodeError).
Proof.
  intros Hrun Hdec. unfold run_command, subprocess_run, decode.
  cbn. rewrite Hrun. cbn. rewrite Hdec. reflexivity.
Qed.

(** C9, as stated, fails: on the output [" abc\n"] the string with only its
    trailing whitespace removed is [" abc"], and [run_command] returns
    ["abc"]: the leading space is removed as well. *)
Lemma run_command_strips_leading_too :
  decode_utf8 [x20; x61; x62; x63; x0a] = Some (lit " abc" ++ [10%N]) /\
  stripped_right (lit " abc" ++ [10%N]) (lit " abc") /\
  outcome (run_command prints_padded [lit "git"]) = Ok (lit "abc") /\
  ~ stripped_right (lit " abc" ++ [10%N]) (lit "abc").
Proof.
  split; [reflexivity |]. split.
  - exists [10%N]. repeat split; reflexivity.
  - split; [reflexivity |].
    intros (post & Hs & _). discriminate Hs.
Qed.

(** C9, amended: for every command that completes with an output that is
    valid UTF-8, [run_command] returns exactly the decoded output with the
    whitespace at both ends removed, the leading as well as the trailing,
    and nothing else. *)
Theorem run_command_returns_stripped_stdout
    (spawn : list str -> spawned) (args : list str)
    (cp : CompletedProcess) (s : str) :
  spawn args = Completed cp ->
  decode_utf8 (stdout cp) = Some s ->
  exists r,
    run_command spawn args = ([Run args], Ok r) /\
    r = strip s /\ stripped_both s r.
Proof.
  intros Hrun Hdec. exists (strip s).
  split; [exact (run_command_completed spawn args cp s Hrun Hdec) |].
  split; [reflexivity | apply strip_spec].
Qed.

Lemma run_command_returns_stripped_stdout_witness :
  exists r,
    run_command prints_padded [lit "git"] = ([Run [lit "git"]], Ok r) /\
    r = strip (lit " abc" ++ [10%N]) /\
    stripped_both (lit " abc" ++ [10%N]) r.
Proof.
  apply (run_command_returns_stripped_stdout prints_padded [lit "git"]
           {| stdout := [x20; x61; x62; x63; x0a]; stderr := [] |}).
  - reflexivity.
  - reflexivity.
Defined.

(** *** Branch resolution *)

Section Branch.
Variable environ : gmap string (list N).
Variable spawn : list str -> spawned.

(** A ref below [refs/heads/] resolves to what follows the prefix, slashes
    included. *)
Lemma get_github_branch_heads (b : str) :
  environ !! "GITHUB_REF" = Some (lit "refs/heads/" ++ b) ->
  get_github_branch environ = ([EnvGet "GITHUB_REF"], Ok (Some b)).
Proof.
  intros H. unfold get_github_branch.
  rewrite os_environ_get_eq, bind_ok, H. destruct b; reflexivity.
Qed.

Lemma get_github_branch_tags (b : str) :
  environ !! "GITHUB_REF" = Some (lit "refs/tags/" ++ b) ->
  get_github_branch environ = ([EnvGet "GITHUB_REF"], Ok (Some b)).
Proof.
  intros H. unfold get_github_branch.
  rewrite os_environ_get_eq, bind_ok, H. destruct b; reflexivity.
Qed.

Lemma get_github_branch_head_ref :
  truthy (environ !! "GITHUB_REF") = false ->
  get_github_branch environ =
    ([EnvGet "GITHUB_REF"; EnvGet "GITHUB_HEAD_REF"],
     Ok (environ !! "GITHUB_HEAD_REF")).
Proof.
  intros H. unfold get_github_branch.
  rewrite !os_environ_get_eq, bind_ok.
  destruct (environ !! "GITHUB_REF") as [[|c r]|]; try discriminate H;
    reflexivity.
Qed.

Lemma git_branch_github :
  truthy (environ !! "GITHUB_ACTIONS") = true ->
  git_branch environ spawn =
    (EnvGet "GITHUB_ACTIONS" :: trace (get_github_branch environ),
     outcome (get_github_branch environ)).
Proof.
  intros H. unfold git_branch.
  rewrite os_environ_get_eq, bind_ok, H. reflexivity.
Qed.

End Branch.

(** C5: under GitHub Actions ([GITHUB_ACTIONS] set to a non-empty value, as
    the runner sets it), [GITHUB_REF=refs/heads/main] resolves the branch to
    [main], [GITHUB_REF=refs/tags/v1.0] to [v1.0], and with [GITHUB_REF] unset
    [GITHUB_HEAD_REF=feature-x] resolves it to [feature-x]; no command is run
    for it. *)
Theorem git_branch_github_actions
    (environ : gmap string (list N)) (spawn : list str -> spawned) :
  truthy (environ !! "GITHUB_ACTIONS") = true ->
  (environ !! "GITHUB_REF" = Some (lit "refs/heads/main") ->
   git_branch environ spawn =
     ([EnvGet "GITHUB_ACTIONS"; EnvGet "GITHUB_REF"], Ok (Some (lit "main"))))
  /\
  (environ !! "GITHUB_REF" = Some (lit "refs/tags/v1.0") ->
   git_branch environ spawn =
     ([EnvGet "GITHUB_ACTIONS"; EnvGet "GITHUB_REF"], Ok (Some (lit "v1.0"))))
  /\
  (environ !! "GITHUB_REF" = None ->
   environ !! "GITHUB_HEAD_REF" = Some (lit "feature-x") ->
   git_branch environ spawn =
     ([EnvGet "GITHUB_ACTIONS"; EnvGet "GITHUB_REF"; EnvGet "GITHUB_HEAD_REF"],
      Ok (Some (lit "feature-x")))).
Proof.
  intros Hga. repeat split.
  - intros Href. rewrite (git_branch_github _ _ Hga).
    rewrite (get_github_branch_heads environ (lit "main") Href). reflexivity.
  - intros Href. rewrite (git_branch_github _ _ Hga).
    rewrite (get_github_branch_tags environ (lit "v1.0") Href). reflexivity.
  - intros Href Hhead. rewrite (git_branch_github _ _ Hga).
    rewrite get_github_branch_head_ref by (rewrite Href; reflexivity).
    unfold trace, outcome, fst, snd. rewrite Hhead. reflexivity.
Qed.

Lemma git_branch_github_actions_witness :
  git_branch env_github_heads no_git =
    ([EnvGet "GITHUB_ACTIONS"; EnvGet "GITHUB_REF"], Ok (Some (lit "main")))
  /\ git_branch env_github_tags no_git =
       ([EnvGet "GITHUB_ACTIONS"; EnvGet "GITHUB_REF"], Ok (Some (lit "v1.0")))
  /\ git_branch env_github_pull no_git =
       ([EnvGet "GITHUB_ACTIONS"; EnvGet "GITHUB_REF"; EnvGet "GITHUB_HEAD_REF"],
        Ok (Some (lit "feature-x"))).
Proof.
  split; [|split].
  - apply (proj1 (git_branch_github_actions env_github_heads no_git eq_refl)).
    reflexivity.
  - apply (proj1 (proj2
             (git_branch_github_actions env_github_tags no_git eq_refl))).
    reflexivity.
  - apply (proj2 (proj2
             (git_branch_github_actions env_github_pull no_git eq_refl)));
      reflexivity.
Defined.

Lemma git_branch_not_github
    (environ : gmap string (list N)) (spawn : list str -> spawned) :
  truthy (environ !! "GITHUB_ACTIONS") = false ->
  git_branch environ spawn =
    bind ([EnvGet "GITHUB_ACTIONS"], Ok tt)
      (fun _ => por (get_ci_branch environ) (get_git_branch spawn)).
Proof.
  intros H. unfold git_branch.
  rewrite os_environ_get_eq, !bind_ok, H. reflexivity.
Qed.

Section Cascade.
Variable environ : gmap string (list N).

Lemma por_ok (t : list event) (o : option str) (m : M event (option str)) :
  por (t, Ok o) m =
    if truthy o then (t, Ok o) else (t ++ trace m, outcome m).
Proof.
  unfold por. rewrite bind_ok. destruct (truthy o); [|reflexivity].
  unfold ret, trace, outcome, fst, snd. rewrite app_nil_r. reflexivity.
Qed.

(** The loop that the chain of [or] amounts to, started on a value already
    read. *)
Lemma or_chain_fold (rest : list string) :
  forall (t : list event) (o : option str),
    fold_left (fun acc k => por acc (os_environ_get environ k)) rest (t, Ok o)
    = if truthy o then (t, Ok o)
      else match rest with
           | [] => (t, Ok o)
           | _ :: _ =>
               (t ++ List.map EnvGet (consulted environ rest),
                Ok (or_chain environ rest))
           end.
Proof.
  induction rest as [|k rest IH]; intros t o; cbn [fold_left].
  - destruct (truthy o); reflexivity.
  - rewrite por_ok, os_environ_get_eq.
    destruct (truthy o) eqn:Ho.
    + rewrite IH, Ho. reflexivity.
    + unfold trace, outcome, fst, snd. rewrite IH.
      simpl consulted. simpl or_chain.
      destruct (truthy (environ !! k)) eqn:Hk; [reflexivity |].
      destruct rest as [|k' rest]; [reflexivity |].
      rewrite <- app_assoc. reflexivity.
Qed.

Lemma get_ci_branch_eq :
  get_ci_branch environ =
    (List.map EnvGet (consulted environ ci_branch_variables),
     Ok (or_chain environ ci_branch_variables)).
Proof.
  change (get_ci_branch environ) with
    (fold_left (fun acc k => por acc (os_environ_get environ k))
       (tl ci_branch_variables)
       (os_environ_get environ "APPVEYOR_REPO_BRANCH")).
  rewrite os_environ_get_eq, or_chain_fold.
  unfold ci_branch_variables, tl. simpl consulted. simpl or_chain.
  destruct (truthy (environ !! "APPVEYOR_REPO_BRANCH")); reflexivity.
Qed.

Lemma or_chain_first (vars : list string) (v : str) :
  first_nonempty environ vars = Some v ->
  or_chain environ vars = Some v /\ truthy (Some v) = true.
Proof.
  induction vars as [|k rest IH]; simpl; [discriminate |].
  destruct (truthy (environ !! k)) eqn:Hk.
  - intros E. rewrite E in Hk. split; [exact E | exact Hk].
  - intros E. destruct rest as [|k' rest]; [discriminate E |].
    exact (IH E).
Qed.

Lemma or_chain_none (vars : list string) :
  first_nonempty environ vars = None ->
  truthy (or_chain environ vars) = false.
Proof.
  induction vars as [|k rest IH]; simpl; [reflexivity |].
  destruct (truthy (environ !! k)) eqn:Hk.
  - intros E. rewrite E in Hk. discriminate Hk.
  - intros E. destruct rest as [|k' rest]; [exact Hk | exact (IH E)].
Qed.

End Cascade.

(** C4: when [GITHUB_ACTIONS] is unset (or empty), the branch comes from the
    variables [APPVEYOR_REPO_BRANCH], [BUILDKITE_BRANCH], [CI_BRANCH],
    [CIRCLE_BRANCH], [GIT_BRANCH], [TRAVIS_BRANCH], [BRANCH_NAME], read in
    that order; the first non-empty value is the branch, and neither a
    later variable is read nor a command run.  With the variables before
    [CIRCLE_BRANCH] unset, [CIRCLE_BRANCH=dev] and [TRAVIS_BRANCH=main]
    resolve to [dev].  When no variable has a value, all seven were read
    and the repository is asked. *)
Theorem git_branch_ci_cascade
    (environ : gmap string (list N)) (spawn : list str -> spawned) :
  truthy (environ !! "GITHUB_ACTIONS") = false ->
  ci_branch_variables =
    ["APPVEYOR_REPO_BRANCH"; "BUILDKITE_BRANCH"; "CI_BRANCH"; "CIRCLE_BRANCH";
     "GIT_BRANCH"; "TRAVIS_BRANCH"; "BRANCH_NAME"]
  /\ trace (get_ci_branch environ)
     = List.map EnvGet (consulted environ ci_branch_variables)
  /\ (forall v,
        first_nonempty environ ci_branch_variables = Some v ->
        git_branch environ spawn =
          (EnvGet "GITHUB_ACTIONS"
             :: List.map EnvGet (consulted environ ci_branch_variables),
           Ok (Some v)))
  /\ (first_nonempty environ ci_branch_variables = None ->
      git_branch environ spawn =
        (EnvGet "GITHUB_ACTIONS"
           :: List.map EnvGet ci_branch_variables
           ++ trace (get_git_branch spawn),
         outcome (get_git_branch spawn)))
  /\ (truthy (environ !! "APPVEYOR_REPO_BRANCH") = false ->
      truthy (environ !! "BUILDKITE_BRANCH") = false ->
      truthy (environ !! "CI_BRANCH") = false ->
      environ !! "CIRCLE_BRANCH" = Some (lit "dev") ->
      environ !! "TRAVIS_BRANCH" = Some (lit "main") ->
      git_branch environ spawn =
        ([EnvGet "GITHUB_ACTIONS"; EnvGet "APPVEYOR_REPO_BRANCH";
          EnvGet "BUILDKITE_BRANCH"; EnvGet "CI_BRANCH";
          EnvGet "CIRCLE_BRANCH"],
         Ok (Some (lit "dev")))).
Proof.
  intros Hga.
  split; [reflexivity |].
  split; [rewrite get_ci_branch_eq; reflexivity |].
  assert (Hsome : forall v,
             first_nonempty environ ci_branch_variables = Some v ->
             git_branch environ spawn =
               (EnvGet "GITHUB_ACTIONS"
                  :: List.map EnvGet (consulted environ ci_branch_variables),
                Ok (Some v))).
  { intros v Hv. rewrite (git_branch_not_github _ _ Hga), bind_ok.
    rewrite get_ci_branch_eq, por_ok.
    destruct (or_chain_first environ _ v Hv) as [-> ->]. reflexivity. }
  split; [exact Hsome |]. split.
  - intros Hnone. rewrite (git_branch_not_github _ _ Hga), bind_ok.
    rewrite get_ci_branch_eq, por_ok.
    rewrite (or_chain_none environ _ Hnone).
    assert (Hall : consulted environ ci_branch_variables = ci_branch_variables).
    { revert Hnone. unfold ci_branch_variables. simpl.
      repeat match goal with
             | |- context [truthy (environ !! ?k)] =>
                 destruct (truthy (environ !! k)) eqn:?
             end; intros E; try reflexivity;
        match goal with
        | H : truthy (environ !! ?k) = true |- _ =>
            rewrite E in H; discriminate H
        end. }
    rewrite Hall. reflexivity.
  - intros Ha Hb Hc Hd _. rewrite (Hsome (lit "dev")).
    + unfold ci_branch_variables. simpl consulted.
      rewrite Ha, Hb, Hc, Hd. reflexivity.
    + unfold ci_branch_variables. simpl first_nonempty.
      rewrite Ha, Hb, Hc, Hd. reflexivity.
Qed.

Lemma git_branch_ci_cascade_witness :
  git_branch env_circle_travis no_git =
    ([EnvGet "GITHUB_ACTIONS"; EnvGet "APPVEYOR_REPO_BRANCH";
      EnvGet "BUILDKITE_BRANCH"; EnvGet "CI_BRANCH"; EnvGet "CIRCLE_BRANCH"],
     Ok (Some (lit "dev"))).
Proof.
  apply (proj2 (proj2 (proj2 (proj2
           (git_branch_ci_cascade env_circle_travis no_git eq_refl)))));
    reflexivity.
Defined.

End GitProps.

(** ** The head stage and the fallback *)

Module FallbackProps.
Import Py Eff Git Spec PyFacts GitProps.

Lemma outcome_bind {E A B} (c : M E A) (k : A -> M E B) :
  outcome (bind c k) =
    match outcome c with
    | Ok a => outcome (k a)
    | Raise e => Raise e
    end.
Proof.
  destruct c as [t [a|e]]; [|reflexivity].
  rewrite bind_ok. reflexivity.
Qed.

Lemma trace_bind {E A B} (c : M E A) (k : A -> M E B) :
  trace (bind c k) =
    trace c ++ match outcome c with
               | Ok a => trace (k a)
               | Raise _ => []
               end.
Proof.
  destruct c as [t [a|e]].
  - rewrite bind_ok. reflexivity.
  - unfold bind, trace, outcome, fst, snd. rewrite app_nil_r. reflexivity.
Qed.

Lemma outcome_try {E A} (c : M E A) catches (handler : exn -> M E A) :
  outcome (try_except c catches handler) =
    match outcome c with
    | Ok a => Ok a
    | Raise e => if catches e then outcome (handler e) else Raise e
    end.
Proof.
  destruct c as [t [a|e]]; [reflexivity |].
  unfold try_except, outcome; cbn [snd].
  destruct (catches e); [destruct (handler e) |]; reflexivity.
Qed.

Lemma trace_try {E A} (c : M E A) catches (handler : exn -> M E A) :
  trace (try_except c catches handler) =
    trace c ++ match outcome c with
               | Ok _ => []
               | Raise e => if catches e then trace (handler e) else []
               end.
Proof.
  destruct c as [t [a|e]]; unfold try_except, trace, outcome; cbn [fst snd].
  - rewrite app_nil_r. reflexivity.
  - destruct (catches e); [destruct (handler e); reflexivity |].
    cbn [fst]. rewrite app_nil_r. reflexivity.
Qed.

(** What [run_command] gives, by what became of the command. *)
Lemma run_command_eq (spawn : list str -> spawned) (args : list str) :
  run_command spawn args =
    ([Run args],
     match spawn args with
     | Completed cp =>
         match decode_utf8 (stdout cp) with
         | Some s => Ok (strip s)
         | None => Raise UnicodeDecodeError
         end
     | Failed rc out err =>
         Raise (CoverallsException (CalledProcessError rc out err))
     | NotStarted errno => Raise (OSError errno)
     end).
Proof.
  destruct (spawn args) as [cp|rc out err|errno] eqn:Hrun.
  - destruct (decode_utf8 (stdout cp)) as [s|] eqn:Hdec.
    + exact (run_command_completed _ _ _ _ Hrun Hdec).
    + exact (run_command_undecodable _ _ _ Hrun Hdec).
  - exact (run_command_failed _ _ _ _ _ Hrun).
  - exact (run_command_not_started _ _ _ Hrun).
Qed.

Lemma outcome_bind_run_command {B} (spawn : list str -> spawned)
    (args : list str) (k : str -> M event B) :
  outcome (bind (run_command spawn args) k) =
    match spawn args with
    | Completed cp =>
        match decode_utf8 (stdout cp) with
        | Some s => outcome (k (strip s))
        | None => Raise UnicodeDecodeError
        end
    | Failed rc out err =>
        Raise (CoverallsException (CalledProcessError rc out err))
    | NotStarted errno => Raise (OSError errno)
    end.
Proof.
  rewrite outcome_bind, run_command_eq. unfold outcome at 1, snd.
  destruct (spawn args) as [cp|rc out err|errno]; [|reflexivity..].
  destruct (decode_utf8 (stdout cp)); reflexivity.
Qed.

(** [s.split(sep, n)] has at least one field, so [[-1]] finds one. *)
Lemma split_sep_nonempty (sep : N) (s : str) :
  forall (n : nat) (cur : str), split_sep sep n cur s <> [].
Proof.
  induction s as [|c s IH]; intros n cur; simpl; [discriminate |].
  destruct n as [|n]; [discriminate |].
  destruct (c =? sep)%N; [discriminate | apply IH].
Qed.

Lemma getitem_last_ok {E A} (l : list A) :
  l <> [] -> exists x, @getitem_last E A l = ([], Ok x).
Proof.
  intros Hl. unfold getitem_last.
  destruct (rev l) as [|x r] eqn:Hr.
  - apply (f_equal (@rev A)) in Hr. rewrite rev_involutive in Hr.
    contradiction.
  - exists x. reflexivity.
Qed.

Section Fallback.
Variable environ : gmap string (list N).
Variable spawn : list str -> spawned.

Lemma get_github_branch_returns :
  exists o, outcome (get_github_branch environ) = Ok o.
Proof.
  unfold get_github_branch. rewrite outcome_bind, os_environ_get_eq.
  unfold outcome at 1, snd.
  destruct (environ !! "GITHUB_REF") as [r|]; [|eexists; reflexivity].
  match goal with |- context [if ?b then _ else _] => destruct b end;
    [|eexists; reflexivity].
  destruct (getitem_last_ok (E:=event) (split_sep 47 2 [] r)
              (split_sep_nonempty _ _ _ _)) as (x & Hx).
  rewrite Hx, bind_ok. eexists. reflexivity.
Qed.

(** The query of the branch never raises: any failure of the command, and
    an output that does not decode, give [None]. *)
Lemma get_git_branch_returns :
  exists o, outcome (get_git_branch spawn) = Ok o.
Proof.
  unfold get_git_branch. rewrite outcome_try, outcome_bind_run_command.
  destruct (spawn _) as [cp|rc out err|errno]; [|eexists; reflexivity..].
  destruct (decode_utf8 (stdout cp)); eexists; reflexivity.
Qed.

Lemma git_branch_returns :
  exists o, outcome (git_branch environ spawn) = Ok o.
Proof.
  unfold git_branch. rewrite outcome_bind, os_environ_get_eq.
  unfold outcome at 1, snd.
  destruct (truthy (environ !! "GITHUB_ACTIONS")).
  - apply get_github_branch_returns.
  - unfold por. rewrite outcome_bind, get_ci_branch_eq.
    unfold outcome at 1, snd.
    destruct (truthy (or_chain environ ci_branch_variables));
      [eexists; reflexivity | apply get_git_branch_returns].
Qed.

(** When a command of the head stage fails, the [try] of [git_info] ends on
    an exception that its [except] clause catches. *)
Lemma git_info_try_raises :
  vcs_fails spawn = true ->
  exists e,
    outcome (git_info_try environ spawn) = Raise e /\
    (is_CoverallsException e || is_OSError e) = true.
Proof.
  unfold vcs_fails, head_queries, git_info_try.
  destruct git_branch_returns as (b & Hb).
  rewrite outcome_bind, Hb.
  change (gitlog spawn) with (fun fmt => run_command spawn (log_query fmt)).
  cbn beta.
  change (run_command spawn [lit "git"; lit "remote"; lit "-v"])
    with (run_command spawn remote_query).
  cbn [reaches_failure].
  do 7 (rewrite outcome_bind_run_command;
        match goal with
        | |- _ -> exists e, match spawn ?q with _ => _ end = _ /\ _ =>
            destruct (spawn q) as [?cp|? ? ?|?] eqn:?
        end;
        [ match goal with
          | |- context [decode_utf8 (stdout ?c)] =>
              destruct (decode_utf8 (stdout c)) eqn:?
          end;
          [| intros Hf; discriminate Hf]
        | intros _; eexists; split; reflexivity
        | intros _; eexists; split; reflexivity ]).
  intros Hf. discriminate Hf.
Qed.

(** The [except] clause, on the values of the variables. *)
Lemma git_info_except_eq (ex : exn) :
  let h := {| id := environ !! "GIT_ID";
              author_name := environ !! "GIT_AUTHOR_NAME";
              author_email := environ !! "GIT_AUTHOR_EMAIL";
              committer_name := environ !! "GIT_COMMITTER_NAME";
              committer_email := environ !! "GIT_COMMITTER_EMAIL";
              message := environ !! "GIT_MESSAGE" |} in
  let reads :=
    List.map EnvGet ("GIT_BRANCH" :: fallback_variables) in
  git_info_except environ ex =
    if all_truthy (head_values h)
    then (reads,
          Ok (GitDict {| branch := environ !! "GIT_BRANCH"; head := h;
                         remotes := [{| name := environ !! "GIT_REMOTE";
                                        url := environ !! "GIT_URL" |}] |}))
    else (reads ++ [LogWarning failed_collecting ex], Ok EmptyDict).
Proof.
  cbv zeta. unfold git_info_except.
  rewrite !os_environ_get_eq, !bind_ok.
  match goal with |- context [all_truthy ?l] => destruct (all_truthy l) end;
    reflexivity.
Qed.

Lemma git_info_fallback (e : exn) :
  outcome (git_info_try environ spawn) = Raise e ->
  (is_CoverallsException e || is_OSError e) = true ->
  git_info environ spawn =
    (trace (git_info_try environ spawn) ++ trace (git_info_except environ e),
     outcome (git_info_except environ e)).
Proof.
  intros He Hc. unfold git_info.
  destruct (git_info_try environ spawn) as [t r].
  unfold outcome, snd in He. subst r.
  rewrite bind_raise, (try_caught _ _ _ _ Hc). reflexivity.
Qed.

(** Every failure of a command of the head stage is recovered: [git_info]
    returns. *)
Lemma git_info_recovers_failure :
  vcs_fails spawn = true ->
  exists r, outcome (git_info environ spawn) = Ok r.
Proof.
  intros Hf. destruct (git_info_try_raises Hf) as (e & He & Hc).
  rewrite (git_info_fallback e He Hc). unfold outcome at 1, snd.
  pose proof (git_info_except_eq e) as Heq. cbv zeta in Heq. rewrite Heq.
  match goal with |- context [all_truthy ?l] => destruct (all_truthy l) end;
    eexists; reflexivity.
Qed.

(** A failure of the query of the branch gives the branch [None]. *)
Lemma get_git_branch_recovers_failure :
  match spawn branch_query with
  | Completed _ => True
  | Failed _ _ _ | NotStarted _ =>
      get_git_branch spawn = ([Run branch_query], Ok None)
  end.
Proof.
  destruct (spawn branch_query) as [cp|rc out err|errno] eqn:Hq; [exact I | |];
    unfold get_git_branch;
    change [lit "git"; lit "rev-parse"; lit "--abbrev-ref"; lit "HEAD"]
      with branch_query;
    rewrite run_command_eq, Hq, bind_raise; reflexivity.
Qed.

(** A line with two fields gives a remote. *)
Lemma remote_of_line_returns (line : str) :
  (2 <= length (split_ws [] line))%nat ->
  exists r, remote_of_line line = ([], Ok r).
Proof.
  intros Hlen. unfold remote_of_line.
  destruct (split_ws [] line) as [|n [|u fields]];
    [cbn [length] in Hlen; lia | cbn [length] in Hlen; lia |].
  eexists. reflexivity.
Qed.

(** The list comprehension over well-formed lines returns. *)
Lemma fetch_remotes_returns (lines : list str) :
  forallb fetch_line_ok lines = true ->
  exists rs, outcome (fetch_remotes lines) = Ok rs.
Proof.
  induction lines as [|line rest IH]; intros Hok.
  - exists []. reflexivity.
  - cbn [forallb] in Hok. apply andb_true_iff in Hok.
    destruct Hok as [Hline Hrest]. destruct (IH Hrest) as (rs & Hrs).
    cbn [fetch_remotes]. unfold fetch_line_ok in Hline.
    destruct (contains (lit "(fetch)") line); [|exists rs; exact Hrs].
    cbn [negb orb] in Hline. apply Nat.leb_le in Hline.
    destruct (remote_of_line_returns line Hline) as (r & Hr).
    rewrite Hr, bind_ok, outcome_bind, Hrs. eexists. reflexivity.
Qed.

(** When no command of the head stage fails and the outputs are
    well-formed, the [try] of [git_info] returns. *)
Lemma git_info_try_returns :
  wellformed_output spawn = true ->
  vcs_fails spawn = false ->
  exists g, outcome (git_info_try environ spawn) = Ok g.
Proof.
  unfold wellformed_output, vcs_fails, head_queries, git_info_try,
    decodes, remote_listing_ok.
  destruct git_branch_returns as (b & Hb).
  rewrite outcome_bind, Hb.
  change (gitlog spawn) with (fun fmt => run_command spawn (log_query fmt)).
  cbn beta.
  change (run_command spawn [lit "git"; lit "remote"; lit "-v"])
    with (run_command spawn remote_query).
  cbn [forallb reaches_failure].
  do 7 (rewrite outcome_bind_run_command;
        match goal with
        | |- _ -> _ -> exists g, match spawn ?q with _ => _ end = _ =>
            destruct (spawn q) as [?cp|? ? ?|?] eqn:?
        end;
        [ match goal with
          | |- context [decode_utf8 (stdout ?c)] =>
              destruct (decode_utf8 (stdout c)) eqn:?
          end;
          [| intros Hw _; discriminate Hw]
        | intros _ Hf; discriminate Hf
        | intros _ Hf; discriminate Hf ]).
  intros Hw _. cbn [andb] in Hw.
  destruct (fetch_remotes_returns _ Hw) as (rs & Hrs).
  rewrite outcome_bind, Hrs. eexists. reflexivity.
Qed.

End Fallback.

(** C3: when a command of the head stage fails and the eight variables
    [GIT_ID], [GIT_AUTHOR_NAME], [GIT_AUTHOR_EMAIL], [GIT_COMMITTER_NAME],
    [GIT_COMMITTER_EMAIL], [GIT_MESSAGE], [GIT_REMOTE], [GIT_URL] are set to
    non-empty values, [git_info] returns a non-empty context: the six head
    fields are the values of the six variables, and [remotes] has exactly one
    entry, with the name [GIT_REMOTE] and the URL [GIT_URL]. *)
Theorem git_info_fallback_all_set
    (environ : gmap string (list N)) (spawn : list str -> spawned)
    (i an ae cn ce m rn ru : str) :
  vcs_fails spawn = true ->
  environ !! "GIT_ID" = Some i -> i <> [] ->
  environ !! "GIT_AUTHOR_NAME" = Some an -> an <> [] ->
  environ !! "GIT_AUTHOR_EMAIL" = Some ae -> ae <> [] ->
  environ !! "GIT_COMMITTER_NAME" = Some cn -> cn <> [] ->
  environ !! "GIT_COMMITTER_EMAIL" = Some ce -> ce <> [] ->
  environ !! "GIT_MESSAGE" = Some m -> m <> [] ->
  environ !! "GIT_REMOTE" = Some rn -> rn <> [] ->
  environ !! "GIT_URL" = Some ru -> ru <> [] ->
  outcome (git_info environ spawn) =
    Ok (GitDict
          {| branch := environ !! "GIT_BRANCH";
             head := {| id := Some i; author_name := Some an;
                        author_email := Some ae; committer_name := Some cn;
                        committer_email := Some ce; message := Some m |};
             remotes := [{| name := Some rn; url := Some ru |}] |}).
Proof.
  intros Hf Hi Ni Han Nan Hae Nae Hcn Ncn Hce Nce Hm Nm Hrn _ Hru _.
  destruct (git_info_try_raises environ spawn Hf) as (e & He & Hc).
  rewrite (git_info_fallback environ spawn e He Hc). unfold outcome at 1, snd.
  pose proof (git_info_except_eq environ e) as Heq. cbv zeta in Heq.
  rewrite Heq, Hi, Han, Hae, Hcn, Hce, Hm, Hrn, Hru.
  destruct i; [contradiction |]. destruct an; [contradiction |].
  destruct ae; [contradiction |]. destruct cn; [contradiction |].
  destruct ce; [contradiction |]. destruct m; [contradiction |].
  reflexivity.
Qed.

Lemma git_info_fallback_all_set_witness :
  exists g,
    outcome (git_info env_all_eight no_git) = Ok (GitDict g) /\
    id (head g) = Some (lit "5e837ce92220be64821128a70f6093f836dd2c05") /\
    remotes g =
      [{| name := Some (lit "origin");
          url := Some (lit "https://github.com/lemurheavy/coveralls-ruby.git") |}].
Proof.
  eexists. split.
  - apply (git_info_fallback_all_set env_all_eight no_git
             (lit "5e837ce92220be64821128a70f6093f836dd2c05")
             (lit "Wil Gieseler") (lit "wil@example.com")
             (lit "Wil Gieseler") (lit "wil@example.com")
             (lit "depend on simplecov >= 0.7") (lit "origin")
             (lit "https://github.com/lemurheavy/coveralls-ruby.git"));
      first [reflexivity | discriminate].
  - split; reflexivity.
Defined.

(** C1, as stated, fails: with no [git] and the six head variables set but
    neither [GIT_REMOTE] nor [GIT_URL], the variables are only partially
    set, and [git_info] returns a non-empty context, with one remote whose
    name and URL are [None], and logs no warning. *)
Lemma git_info_fallback_without_remote :
  vcs_fails no_git = true /\
  env_head_only !! "GIT_REMOTE" = None /\
  env_head_only !! "GIT_URL" = None /\
  (exists g,
     outcome (git_info env_head_only no_git) = Ok (GitDict g) /\
     remotes g = [{| name := None; url := None |}]) /\
  outcome (git_info env_head_only no_git) <> Ok EmptyDict /\
  existsb is_warning (trace (git_info env_head_only no_git)) = false.
Proof.
  split; [reflexivity |]. split; [reflexivity |]. split; [reflexivity |].
  split; [eexists; split; vm_compute; reflexivity |].
  split; [vm_compute; discriminate | vm_compute; reflexivity].
Qed.

(** C1, amended: when a command of the head stage fails and at least one of
    the six head variables [GIT_ID], [GIT_AUTHOR_NAME], [GIT_AUTHOR_EMAIL],
    [GIT_COMMITTER_NAME], [GIT_COMMITTER_EMAIL], [GIT_MESSAGE] is unset or
    empty, [git_info] logs the warning, with the exception that was caught,
    as the last thing it does, and returns the empty context.  ([GIT_REMOTE]
    and [GIT_URL] have no part in it.) *)
Theorem git_info_fallback_head_incomplete
    (environ : gmap string (list N)) (spawn : list str -> spawned)
    (k : string) :
  vcs_fails spawn = true ->
  In k head_variables ->
  truthy (environ !! k) = false ->
  exists t ex,
    git_info environ spawn =
      (t ++ [LogWarning failed_collecting ex], Ok EmptyDict) /\
    (is_CoverallsException ex || is_OSError ex) = true.
Proof.
  intros Hf Hk Hfalse.
  destruct (git_info_try_raises environ spawn Hf) as (e & He & Hc).
  rewrite (git_info_fallback environ spawn e He Hc).
  pose proof (git_info_except_eq environ e) as Heq. cbv zeta in Heq.
  rewrite Heq.
  assert (Hall : all_truthy
                   (head_values
                      {| id := environ !! "GIT_ID";
                         author_name := environ !! "GIT_AUTHOR_NAME";
                         author_email := environ !! "GIT_AUTHOR_EMAIL";
                         committer_name := environ !! "GIT_COMMITTER_NAME";
                         committer_email := environ !! "GIT_COMMITTER_EMAIL";
                         message := environ !! "GIT_MESSAGE" |}) = false).
  { unfold all_truthy, head_values. cbn [forallb id author_name author_email
      committer_name committer_email message].
    unfold head_variables in Hk. cbn [In] in Hk.
    repeat (destruct Hk as [<- | Hk];
            [rewrite Hfalse, ?andb_false_r; reflexivity |]).
    contradiction. }
  rewrite Hall. unfold trace at 2, outcome, fst, snd.
  eexists _, e. split; [|exact Hc].
  rewrite app_assoc. reflexivity.
Qed.

Lemma git_info_fallback_head_incomplete_witness :
  exists t ex,
    git_info env_no_message no_git =
      (t ++ [LogWarning failed_collecting ex], Ok EmptyDict) /\
    (is_CoverallsException ex || is_OSError ex) = true.
Proof.
  apply (git_info_fallback_head_incomplete env_no_message no_git "GIT_MESSAGE").
  - reflexivity.
  - unfold head_variables. cbn [In]. tauto.
  - reflexivity.
Defined.

(** Two runs of [git_info].  When only the query of the branch fails, the
    failure is recovered, but not by the fallback: the branch is [None], the
    head comes from the repository and no variable of the fallback is read.
    And in a repository whose author name is stored in Latin-1, [git log]
    completes and prints a byte that is no UTF-8: decoding raises
    [UnicodeDecodeError], which [except (CoverallsException, OSError)] does
    not catch, and [git_info] raises it. *)
Lemma git_info_neither_always_falls_back_nor_always_returns :
  (branch_query_fails branch_query = Failed 128 [] [] /\
   outcome (git_info ∅ branch_query_fails) =
     Ok (GitDict
           {| branch := None;
              head := {| id := Some (lit "main");
                         author_name := Some (lit "main");
                         author_email := Some (lit "main");
                         committer_name := Some (lit "main");
                         committer_email := Some (lit "main");
                         message := Some (lit "main") |};
              remotes := [] |}) /\
   existsb is_fallback_read (trace (git_info ∅ branch_query_fails)) = false)
  /\
  (latin1_author (log_query (lit "%aN"))
     = Completed {| stdout := [x52; x65; x6e; xe9]; stderr := [] |} /\
   decode_utf8 [x52; x65; x6e; xe9] = None /\
   is_CoverallsException UnicodeDecodeError || is_OSError UnicodeDecodeError
     = false /\
   outcome (git_info ∅ latin1_author) = Raise UnicodeDecodeError).
Proof.
  split; repeat split; vm_compute; reflexivity.
Qed.

(** A condition under which [git_info] returns: each command of the head
    stage fails or completes with an output that is valid UTF-8 (two fields
    on every fetch line of the remote listing).  A failure of a command of
    the head stage is then recovered by the fallback: the variables of the
    fallback are read.  A failure of the query of the branch is recovered by
    the branch [None]. *)
Theorem git_info_returns_on_wellformed_output
    (environ : gmap string (list N)) (spawn : list str -> spawned) :
  wellformed_output spawn = true ->
  (exists r, outcome (git_info environ spawn) = Ok r)
  /\ (vcs_fails spawn = true ->
      exists t rest,
        trace (git_info environ spawn) =
          t ++ List.map EnvGet ("GIT_BRANCH" :: fallback_variables) ++ rest)
  /\ match spawn branch_query with
     | Completed _ => True
     | Failed _ _ _ | NotStarted _ =>
         get_git_branch spawn = ([Run branch_query], Ok None)
     end.
Proof.
  intros Hw. split; [|split].
  - destruct (vcs_fails spawn) eqn:Hf.
    + exact (git_info_recovers_failure environ spawn Hf).
    + destruct (git_info_try_returns environ spawn Hw Hf) as (g & Hg).
      unfold git_info. rewrite outcome_try, outcome_bind, Hg.
      eexists. reflexivity.
  - intros Hf.
    destruct (git_info_try_raises environ spawn Hf) as (e & He & Hc).
    rewrite (git_info_fallback environ spawn e He Hc).
    pose proof (git_info_except_eq environ e) as Heq. cbv zeta in Heq.
    rewrite Heq. unfold trace at 1, fst.
    exists (trace (git_info_try environ spawn)).
    match goal with |- context [all_truthy ?l] => destruct (all_truthy l) end;
      unfold trace at 2, fst.
    + exists []. rewrite app_nil_r. reflexivity.
    + exists [LogWarning failed_collecting e]. reflexivity.
  - apply get_git_branch_recovers_failure.
Qed.

Lemma git_info_returns_on_wellformed_output_witness :
  (exists r, outcome (git_info env_no_message no_git) = Ok r)
  /\ exists t rest,
       trace (git_info env_no_message no_git) =
         t ++ List.map EnvGet ("GIT_BRANCH" :: fallback_variables) ++ rest.
Proof.
  split.
  - exact (proj1 (git_info_returns_on_wellformed_output
                    env_no_message no_git eq_refl)).
  - exact (proj1 (proj2 (git_info_returns_on_wellformed_output
                           env_no_message no_git eq_refl)) eq_refl).
Defined.

(** C8, the failing input: a repository whose author name is stored in
    Latin-1.  Every command completes with status zero, none fails;
    [git log -1 --pretty=format:%aN] prints the bytes [52 65 6e e9], which
    are no UTF-8.  [run_command] raises [UnicodeDecodeError] from its
    [decode]; the class is neither [CoverallsException] nor [OSError], so the
    [except] clause of [git_info] does not catch it, and [git_info] raises it.
    On the same output the sibling [get_git_branch], which catches
    [Exception], returns [None]. *)
Theorem git_info_raises_on_undecodable_output :
  latin1_author (log_query (lit "%aN"))
    = Completed {| stdout := [x52; x65; x6e; xe9]; stderr := [] |}
  /\ decode_utf8 [x52; x65; x6e; xe9] = None
  /\ vcs_fails latin1_author = false
  /\ wellformed_output latin1_author = false
  /\ outcome (run_command latin1_author (log_query (lit "%aN")))
     = Raise UnicodeDecodeError
  /\ is_CoverallsException UnicodeDecodeError || is_OSError UnicodeDecodeError
     = false
  /\ outcome (git_info ∅ latin1_author) = Raise UnicodeDecodeError
  /\ outcome
       (get_git_branch
          (fun _ => Completed {| stdout := [x52; x65; x6e; xe9];
                                 stderr := [] |}))
     = Ok None.
Proof. repeat split; vm_compute; reflexivity. Qed.

(** The same happens on a fetch line of the remote listing with a single
    field, where [line.split()[1]] raises [IndexError]. *)
Lemma git_info_raises_on_short_remote_line :
  wellformed_output short_remote_line = false /\
  outcome (git_info ∅ short_remote_line) = Raise IndexError.
Proof. split; vm_compute; reflexivity. Qed.

(** [get_git_branch] catches [Exception]: there an output that does not
    decode gives [None]. *)
Lemma get_git_branch_recovers_undecodable_output :
  outcome (get_git_branch (fun _ => Completed {| stdout := [xe9]; stderr := [] |}))
    = Ok None.
Proof. vm_compute. reflexivity. Qed.

End FallbackProps.

(** ** The submission orchestrator *)

Module CliProps.
Import Py Eff Cli CliSpec GitProps FallbackProps.

Lemma bind_ext {E A B} (c : M E A) (k k' : A -> M E B) :
  (forall a, k a = k' a) -> bind c k = bind c k'.
Proof.
  intros H. destruct c as [t [a|e]]; [|reflexivity].
  unfold bind. rewrite H. reflexivity.
Qed.

Lemma token_required_false (options : Options) :
  token_required options = false <->
  debug options = true \/ truthy (output options) = true.
Proof.
  unfold token_required.
  destruct (debug options), (truthy (output options)); simpl; intuition congruence.
Qed.

Lemma select_mode_default (options : Options) :
  select_mode options = Default <-> no_action options.
Proof.
  unfold select_mode, no_action.
  destruct (truthy (merge options)), (debug options),
    (truthy (output options)), (truthy (submit options)), (finish options);
    intuition congruence.
Qed.

Section World.
Variable Obj : Type.
Variable Coveralls :
  bool -> option str -> option str -> str -> str -> result Obj.
Variable api_merge : Obj -> option str -> result unit.
Variable api_wear : Obj -> bool -> result (gmap string (list N)).
Variable api_save_report : Obj -> option str -> result unit.
Variable api_submit_report : Obj -> str -> result unit.
Variable api_parallel_finish : Obj -> result unit.
Variable metadata_version : result str.
Variable docopt : option (list str) -> str -> result Options.
Variable read_file : option str -> result str.

Local Abbreviation handlers := (action_handlers Obj api_merge api_wear
  api_save_report api_submit_report api_parallel_finish read_file).
Local Abbreviation default := (handle_default Obj api_wear).
Local Abbreviation handler := (handler_of Obj api_merge api_wear api_save_report
  api_submit_report api_parallel_finish read_file).
Local Abbreviation setup := (setup_coveralls Obj Coveralls).
Local Abbreviation try_body := (main_try Obj Coveralls api_merge api_wear
  api_save_report api_submit_report api_parallel_finish read_file).
Local Abbreviation run := (main Obj Coveralls api_merge api_wear api_save_report
  api_submit_report api_parallel_finish metadata_version docopt read_file).

(** The loop over the table runs the handler of the selected mode. *)
Lemma first_action_selects (options : Options) (coverallz : Obj) :
  first_action options (handlers options coverallz) (default coverallz)
    = handler options coverallz (select_mode options).
Proof.
  unfold action_handlers, select_mode. cbn [first_action].
  change (options_get options "--merge") with (Some (Arg (merge options))).
  change (options_get options "debug") with (Some (Flag (debug options))).
  change (options_get options "--output") with (Some (Arg (output options))).
  change (options_get options "--submit") with (Some (Arg (submit options))).
  change (options_get options "--finish") with (Some (Flag (finish options))).
  cbn [truthy_val].
  destruct (truthy (merge options)); [reflexivity |].
  destruct (debug options); [reflexivity |].
  destruct (truthy (output options)); [reflexivity |].
  destruct (truthy (submit options)); [reflexivity |].
  destruct (finish options); reflexivity.
Qed.

Lemma call_eq {A} (ev : event) (r : result A) : call ev r = ([ev], r).
Proof. unfold call, emit. rewrite bind_ok. reflexivity. Qed.

Lemma log_info_eq (s : string) : log_info s = ([LogInfo (Text s)], Ok tt).
Proof. reflexivity. Qed.

Ltac unfold_handlers :=
  unfold handle_debug, handle_output, handle_submit, handle_finish,
    handle_default;
  rewrite ?call_eq, ?log_info_eq.

(** Every handler starts with the first event of its mode. *)
Lemma handler_starts (options : Options) (coverallz : Obj) (mode : Mode) :
  exists t,
    trace (handler options coverallz mode) = first_event options mode :: t.
Proof.
  destruct mode; cbn [handler_of first_event]; unfold_handlers;
    rewrite ?trace_bind; cbn [app trace fst]; eexists; reflexivity.
Qed.

Ltac case_collaborators :=
  repeat match goal with
         | |- context [api_wear ?c ?b] => destruct (api_wear c b)
         | |- context [api_merge ?c ?p] => destruct (api_merge c p)
         | |- context [api_save_report ?c ?p] => destruct (api_save_report c p)
         | |- context [read_file ?p] => destruct (read_file p)
         | |- context [api_submit_report ?c ?p] =>
             destruct (api_submit_report c p)
         | |- context [api_parallel_finish ?c] =>
             destruct (api_parallel_finish c)
         | |- context [decide (?a = ?b)] => destruct (decide (a = b))
         end.

(** No handler performs the first event of another mode. *)
Lemma handler_excludes (options : Options) (coverallz : Obj) (mode other : Mode) :
  In (first_event options other) (trace (handler options coverallz mode)) ->
  other = mode.
Proof.
  destruct mode; cbn [handler_of]; unfold_handlers;
    case_collaborators;
    repeat (rewrite ?bind_ok, ?bind_raise, ?call_eq;
            cbn [trace outcome fst snd app]; case_collaborators);
    unfold emit; rewrite ?bind_ok; cbn [trace outcome fst snd app In];
    destruct other; cbn [first_event];
    intros H; try reflexivity;
    repeat (destruct H as [H | H]; [discriminate H |]);
    contradiction.
Qed.

Lemma main_try_eq (options : Options) :
  try_body options =
    bind (setup options)
      (fun coverallz => handler options coverallz (select_mode options)).
Proof.
  unfold main_try. apply bind_ext. intros coverallz.
  apply first_action_selects.
Qed.

(** [main], once the version was found and the arguments were parsed. *)
Lemma main_eq (argv : option (list str)) (version : str) (options : Options) :
  metadata_version = Ok version ->
  docopt argv version = Ok options ->
  run argv =
    bind ([Version; Docopt argv version], Ok tt)
      (fun _ =>
         try_except
           (try_body (if debug options then set_verbose options else options))
           (fun e => is_KeyboardInterrupt e || is_Exception e)
           main_except).
Proof.
  intros Hv Hd. unfold main.
  rewrite !call_eq, Hv, bind_ok. cbn [trace outcome fst snd].
  rewrite call_eq, Hd, !bind_ok. reflexivity.
Qed.

(** The dispatch inside the [try] of [main], once the object is built:
    the options are taken in the order merge, debug, output, submit, finish;
    the handler of the first one that is given runs, and the default handler
    exactly when none of the five is given.  The loop starts with the first
    event of the selected handler and has the first event of no other. *)
Theorem main_runs_exactly_one_mode (options : Options) :
  (forall coverallz,
     List.map fst (handlers options coverallz)
       = ["--merge"; "debug"; "--output"; "--submit"; "--finish"])
  /\ try_body options =
       bind (setup options)
         (fun coverallz => handler options coverallz (select_mode options))
  /\ (forall coverallz,
        first_action options (handlers options coverallz) (default coverallz)
          = handler options coverallz (select_mode options))
  /\ (forall coverallz,
        exists t,
          trace (first_action options (handlers options coverallz)
                   (default coverallz))
            = first_event options (select_mode options) :: t)
  /\ (forall coverallz other,
        In (first_event options other)
           (trace (first_action options (handlers options coverallz)
                     (default coverallz))) ->
        other = select_mode options)
  /\ (forall coverallz,
        first_action options (handlers options coverallz) (default coverallz)
          = default coverallz
        <-> no_action options).
Proof.
  split; [reflexivity |].
  split; [apply main_try_eq |].
  split; [apply first_action_selects |].
  split; [intros c; rewrite first_action_selects; apply handler_starts |].
  split.
  - intros c other. rewrite first_action_selects. apply handler_excludes.
  - intros c. rewrite first_action_selects, <- select_mode_default. split.
    + intros Heq.
      destruct (handler_starts options c Default) as (t & Ht).
      symmetry. apply (handler_excludes options c (select_mode options)).
      rewrite Heq. cbn [handler_of]. cbn [handler_of] in Ht.
      rewrite Ht. left. reflexivity.
    + intros ->. reflexivity.
Qed.

(** A run in which [--merge] is given ends after the call of [merge]:
    whatever the collaborators do, no report goes out. *)
Lemma merge_run_never_dispatches (options : Options) :
  truthy (merge options) = true ->
  existsb is_dispatch (trace (try_body options)) = false.
Proof.
  intros Hm. rewrite main_try_eq. unfold select_mode. rewrite Hm.
  cbn [handler_of]. unfold setup_coveralls, emit.
  rewrite !call_eq, !bind_ok. cbn [trace outcome fst snd app].
  destruct (Coveralls _ _ _ _ _) as [c|e];
    rewrite ?bind_ok, ?bind_raise; [rewrite call_eq |]; reflexivity.
Qed.

(** C10, amended: the requirement passed to the constructor is
    [not options['debug'] and not options['--output']]: it is off exactly
    when the [debug] command or the [--output] option is given.  It is off
    in the Debug and WriteFile modes, on in the SubmitFile, Finish and Default
    modes, and in the Merge mode it is still decided by the two options. *)
Theorem token_required_by_debug_and_output (options : Options) :
  (exists t,
     trace (setup options) =
       t ++ [New (token_required options) (rcfile options) (service options)
               (or_empty (basedir options)) (or_empty (srcdir options))])
  /\ (token_required options = false <->
      debug options = true \/ truthy (output options) = true)
  /\ match select_mode options with
     | Debug | WriteFile => token_required options = false
     | SubmitFile | Finish | Default => token_required options = true
     | Merge =>
         token_required options
           = negb (debug options || truthy (output options))
     end.
Proof.
  split.
  - unfold setup_coveralls, emit. rewrite call_eq, !bind_ok.
    cbn [trace outcome fst snd app].
    exists [AddHandler; SetLevel (if verbose options then DEBUG else INFO)].
    reflexivity.
  - split; [apply token_required_false |].
    unfold select_mode, token_required.
    destruct (truthy (merge options)), (debug options),
      (truthy (output options)), (truthy (submit options)), (finish options);
      reflexivity.
Qed.

(** C7, amended: an exception derived from [Exception] that comes out of
    the [try] of [main] (from the construction of the [Coveralls] object or
    from the handler that runs) is caught and logged, and the process ends
    with status one; a [KeyboardInterrupt] there is caught, only the line
    [Aborted] is logged, and the process ends with status zero. *)
Theorem main_handles_exceptions_of_the_try
    (argv : option (list str)) (version : str) (options : Options) (e : exn) :
  metadata_version = Ok version ->
  docopt argv version = Ok options ->
  outcome (try_body (if debug options then set_verbose options else options))
    = Raise e ->
  let body :=
    trace (try_body (if debug options then set_verbose options else options)) in
  (is_Exception e = true ->
   run argv =
     ([Version; Docopt argv version] ++ body
        ++ [LogException "Error running coveralls: %s" e],
      Raise (SystemExit 1))
   /\ exit_status (outcome (run argv)) = 1%Z)
  /\ (e = KeyboardInterrupt ->
      run argv =
        ([Version; Docopt argv version] ++ body ++ [LogInfo (Text "Aborted")],
         Ok tt)
      /\ exit_status (outcome (run argv)) = 0%Z).
Proof.
  intros Hv Hd He body. rewrite (main_eq argv version options Hv Hd).
  rewrite bind_ok. subst body.
  destruct (try_body (if debug options then set_verbose options else options))
    as [t r].
  unfold outcome at 1, snd in He. subst r. split.
  - intros Hexc.
    rewrite try_caught by (rewrite Hexc; apply orb_true_r).
    unfold main_except.
    destruct (is_KeyboardInterrupt e) eqn:Hk;
      [destruct e; discriminate |].
    unfold emit. rewrite bind_ok. split; reflexivity.
  - intros ->. rewrite try_caught by reflexivity.
    split; reflexivity.
Qed.

(** An exception of another class that comes out of the [try] goes
    through [main]. *)
Lemma main_lets_other_base_exceptions_through
    (argv : option (list str)) (version : str) (options : Options) (e : exn) :
  metadata_version = Ok version ->
  docopt argv version = Ok options ->
  outcome (try_body (if debug options then set_verbose options else options))
    = Raise e ->
  is_Exception e = false -> is_KeyboardInterrupt e = false ->
  outcome (run argv) = Raise e.
Proof.
  intros Hv Hd He Hexc Hk. rewrite (main_eq argv version options Hv Hd).
  rewrite outcome_bind. cbn [outcome snd]. 
  rewrite outcome_try. cbn [outcome snd] in He |- *.
  rewrite He, Hk, Hexc. reflexivity.
Qed.

End World.

(** C2, the failing input: [coveralls --merge=extra.json] in a world where
    every collaborator does its work.  The run builds the [Coveralls]
    object, calls [merge] and returns: [wear] is never called, no report
    goes out. *)
Theorem main_merge_returns_without_submitting :
  select_mode options_merge = Merge /\
  main_in_good_world options_merge None =
    ([Version; Docopt None (lit "4.0.1"); AddHandler; SetLevel INFO;
      New true (Some (lit ".coveragerc")) None [] [];
      CallMerge (Some (lit "extra.json"))],
     Ok tt) /\
  existsb is_dispatch (trace (main_in_good_world options_merge None)) = false.
Proof.
  split; [reflexivity |]. split; vm_compute; reflexivity.
Qed.

(** Without [--merge] the same world sees the report go out. *)
Lemma main_default_submits :
  existsb is_dispatch (trace (main_in_good_world no_options None)) = true.
Proof. vm_compute. reflexivity. Qed.

(** C10, as stated, fails: [coveralls debug --merge=extra.json] is a run in
    the Merge mode (the only call into the object is [merge]), a mode that
    is neither Debug nor WriteFile, and the constructor gets a requirement
    that is off. *)
Lemma token_not_required_in_a_merge_run :
  select_mode options_debug_merge = Merge /\
  token_required options_debug_merge = false /\
  main_in_good_world options_debug_merge None =
    ([Version; Docopt None (lit "4.0.1"); AddHandler; SetLevel DEBUG;
      New false (Some (lit ".coveragerc")) None [] [];
      CallMerge (Some (lit "extra.json"))],
     Ok tt).
Proof.
  split; [reflexivity |]. split; [reflexivity |]. vm_compute. reflexivity.
Qed.

(** C7, as stated, fails: when the metadata of the package is missing, the
    look-up of the version, the first statement of [main], raises
    [PackageNotFoundError], a class derived from [Exception]; it is raised
    before the [try], so [main] neither catches nor logs it and never calls
    [sys.exit(1)]: the exception leaves [main]. *)
Lemma main_does_not_catch_before_the_try :
  is_Exception PackageNotFoundError = true /\
  main_without_metadata no_options None
    = ([Version], Raise PackageNotFoundError) /\
  existsb is_log_exception (trace (main_without_metadata no_options None))
    = false /\
  outcome (main_without_metadata no_options None) <> Raise (SystemExit 1).
Proof.
  split; [reflexivity |]. split; [reflexivity |].
  split; [reflexivity | discriminate].
Qed.

Lemma main_handles_exceptions_of_the_try_witness :
  (main_when_wear_raises (OtherException "ConnectionError") no_options None =
     ([Version; Docopt None (lit "4.0.1")]
        ++ [AddHandler; SetLevel INFO;
            New true (Some (lit ".coveragerc")) None [] [];
            LogInfo (Text "Submitting coverage to coveralls.io...");
            CallWear false]
        ++ [LogException "Error running coveralls: %s"
              (OtherException "ConnectionError")],
      Raise (SystemExit 1))
   /\ exit_status
        (outcome (main_when_wear_raises (OtherException "ConnectionError")
                    no_options None)) = 1%Z)
  /\ (main_when_wear_raises KeyboardInterrupt no_options None =
        ([Version; Docopt None (lit "4.0.1")]
           ++ [AddHandler; SetLevel INFO;
               New true (Some (lit ".coveragerc")) None [] [];
               LogInfo (Text "Submitting coverage to coveralls.io...");
               CallWear false]
           ++ [LogInfo (Text "Aborted")],
         Ok tt)
      /\ exit_status
           (outcome (main_when_wear_raises KeyboardInterrupt no_options None))
         = 0%Z).
Proof.
  split.
  - refine (proj1
      (main_handles_exceptions_of_the_try unit
         (fun _ _ _ _ _ => Ok tt) (fun _ _ => Ok tt)
         (fun _ _ => Raise (OtherException "ConnectionError"))
         (fun _ _ => Ok tt) (fun _ _ => Ok tt) (fun _ => Ok tt)
         (Ok (lit "4.0.1")) (fun _ _ => Ok no_options) (fun _ => Ok (lit "{}"))
         None (lit "4.0.1") no_options (OtherException "ConnectionError")
         eq_refl eq_refl eq_refl) eq_refl).
  - refine (proj2
      (main_handles_exceptions_of_the_try unit
         (fun _ _ _ _ _ => Ok tt) (fun _ _ => Ok tt)
         (fun _ _ => Raise KeyboardInterrupt)
         (fun _ _ => Ok tt) (fun _ _ => Ok tt) (fun _ => Ok tt)
         (Ok (lit "4.0.1")) (fun _ _ => Ok no_options) (fun _ => Ok (lit "{}"))
         None (lit "4.0.1") no_options KeyboardInterrupt
         eq_refl eq_refl eq_refl) eq_refl).
Defined.

End CliProps.

(** ** More on the VCS context resolver *)

Module GitExtra.
Import Py Eff Git Spec PyFacts GitProps FallbackProps.

Lemma bind_answer {B} (spawn : list str -> spawned) (q : list str) (x : str)
    (k : str -> M event B) :
  answer spawn q = Some x ->
  bind (run_command spawn q) k = (Run q :: trace (k x), outcome (k x)).
Proof.
  unfold answer. intros Ha. rewrite run_command_eq.
  destruct (spawn q) as [cp|rc out err|errno]; try discriminate Ha.
  destruct (decode_utf8 (stdout cp)) as [s|]; try discriminate Ha.
  injection Ha as <-. rewrite bind_ok. reflexivity.
Qed.

(** X1: [run_command] runs the command once.  It returns exactly when the
    command completes with an output that is valid UTF-8; a non-zero exit
    status is raised as a [CoverallsException] that carries the
    [CalledProcessError] with the status and both outputs; a program that
    cannot be started raises the [OSError] as it is, not wrapped; an output
    that does not decode raises [UnicodeDecodeError]. *)
Theorem run_command_outcomes (spawn : list str -> spawned) (args : list str) :
  trace (run_command spawn args) = [Run args]
  /\ (forall r, outcome (run_command spawn args) = Ok r <->
                answer spawn args = Some r)
  /\ (forall e, outcome (run_command spawn args) = Raise (CoverallsException e)
                <-> exists rc out err,
                      spawn args = Failed rc out err /\
                      e = CalledProcessError rc out err)
  /\ (forall n, outcome (run_command spawn args) = Raise (OSError n)
                <-> spawn args = NotStarted n)
  /\ (outcome (run_command spawn args) = Raise UnicodeDecodeError
      <-> exists cp, spawn args = Completed cp /\
                     decode_utf8 (stdout cp) = None).
Proof.
  rewrite run_command_eq. unfold answer, trace, outcome, fst, snd.
  split; [reflexivity |].
  destruct (spawn args) as [cp|rc out err|errno].
  - destruct (decode_utf8 (stdout cp)) as [s|] eqn:Hd;
      cbn [fmap option_fmap option_map].
    + repeat split; try congruence.
      * intros (? & ? & ? & H & _). discriminate H.
      * intros (cp' & H & Hn). injection H as <-. congruence.
    + repeat split; try congruence.
      * intros (? & ? & ? & H & _). discriminate H.
      * intros _. exists cp. split; [reflexivity | exact Hd].
  - repeat split; try congruence.
    + intros H. injection H as <-. eauto.
    + intros (? & ? & ? & H & ->). injection H as -> -> ->. reflexivity.
    + intros (? & H & _). discriminate H.
  - repeat split; try congruence.
    + intros (? & ? & ? & H & _). discriminate H.
    + intros (? & H & _). discriminate H.
Qed.

Section Branch.
Variable environ : gmap string (list N).
Variable spawn : list str -> spawned.

(** X2: under [GITHUB_REF], whatever follows [refs/heads/] or [refs/tags/]
    is the branch, further slashes included; only [GITHUB_REF] is read. *)
Theorem get_github_branch_keeps_slashes (b : str) :
  environ !! "GITHUB_REF" = Some (lit "refs/heads/" ++ b)
  \/ environ !! "GITHUB_REF" = Some (lit "refs/tags/" ++ b) ->
  get_github_branch environ = ([EnvGet "GITHUB_REF"], Ok (Some b)).
Proof.
  intros [H | H].
  - exact (get_github_branch_heads environ b H).
  - exact (get_github_branch_tags environ b H).
Qed.

(** X3: a [GITHUB_REF] that is unset, empty, or starts with neither
    [refs/heads/] nor [refs/tags/] (a pull request) gives the value of
    [GITHUB_HEAD_REF] as it is, [None] when that is unset. *)
Theorem get_github_branch_falls_to_head_ref :
  match environ !! "GITHUB_REF" with
  | Some r =>
      r = [] \/
      (startswith (lit "refs/heads/") r = false /\
       startswith (lit "refs/tags/") r = false)
  | None => True
  end ->
  get_github_branch environ =
    ([EnvGet "GITHUB_REF"; EnvGet "GITHUB_HEAD_REF"],
     Ok (environ !! "GITHUB_HEAD_REF")).
Proof.
  intros H. unfold get_github_branch.
  rewrite !os_environ_get_eq, bind_ok.
  destruct (environ !! "GITHUB_REF") as [r|]; [|reflexivity].
  destruct H as [-> | [-> ->]]; [reflexivity |].
  rewrite andb_false_r. reflexivity.
Qed.

(** The query of the branch, in full. *)
Lemma get_git_branch_eq :
  get_git_branch spawn = ([Run branch_query], Ok (answer spawn branch_query)).
Proof.
  unfold get_git_branch, answer.
  change [lit "git"; lit "rev-parse"; lit "--abbrev-ref"; lit "HEAD"]
    with branch_query.
  rewrite run_command_eq.
  destruct (spawn branch_query) as [cp|rc out err|errno]; try reflexivity.
  destruct (decode_utf8 (stdout cp)) as [s|]; reflexivity.
Qed.

Lemma get_github_branch_cases :
  exists o,
    get_github_branch environ = ([EnvGet "GITHUB_REF"], Ok o)
    \/ get_github_branch environ =
         ([EnvGet "GITHUB_REF"; EnvGet "GITHUB_HEAD_REF"], Ok o).
Proof.
  unfold get_github_branch. rewrite !os_environ_get_eq, bind_ok.
  destruct (environ !! "GITHUB_REF") as [r|];
    [|eexists; right; reflexivity].
  match goal with |- context [if ?b then _ else _] => destruct b end;
    [|eexists; right; reflexivity].
  destruct (getitem_last_ok (E:=event) (split_sep 47 2 [] r)
              (split_sep_nonempty _ _ _ _)) as (x & Hx).
  rewrite Hx, bind_ok. eexists. left. reflexivity.
Qed.

(** X4: under GitHub Actions the branch comes from [GITHUB_REF] and
    [GITHUB_HEAD_REF] alone: these are the only variables read after
    [GITHUB_ACTIONS], no command is run, and the result is the same whatever
    the repository answers, [None] included. *)
Theorem git_branch_github_only :
  truthy (environ !! "GITHUB_ACTIONS") = true ->
  exists t o,
    (t = [EnvGet "GITHUB_ACTIONS"; EnvGet "GITHUB_REF"]
     \/ t = [EnvGet "GITHUB_ACTIONS"; EnvGet "GITHUB_REF";
             EnvGet "GITHUB_HEAD_REF"])
    /\ forall spawn', git_branch environ spawn' = (t, Ok o).
Proof.
  intros Hga. destruct get_github_branch_cases as (o & [H | H]).
  - exists [EnvGet "GITHUB_ACTIONS"; EnvGet "GITHUB_REF"], o.
    split; [left; reflexivity |].
    intros spawn'. rewrite (git_branch_github _ _ Hga), H. reflexivity.
  - exists [EnvGet "GITHUB_ACTIONS"; EnvGet "GITHUB_REF";
            EnvGet "GITHUB_HEAD_REF"], o.
    split; [right; reflexivity |].
    intros spawn'. rewrite (git_branch_github _ _ Hga), H. reflexivity.
Qed.

Lemma no_run_among_reads (args : list str) (keys : list string) :
  ~ In (Run args) (List.map EnvGet keys).
Proof.
  induction keys as [|k keys IH]; cbn [List.map In]; [tauto |].
  intros [H | H]; [discriminate H | exact (IH H)].
Qed.

(** X5: [git_branch] never raises, whatever the environment holds and the
    commands do, and the only command it can run is
    [git rev-parse --abbrev-ref HEAD]. *)
Theorem git_branch_never_raises :
  exists o,
    outcome (git_branch environ spawn) = Ok o /\
    forall args,
      In (Run args) (trace (git_branch environ spawn)) -> args = branch_query.
Proof.
  destruct (truthy (environ !! "GITHUB_ACTIONS")) eqn:Hga.
  - rewrite (git_branch_github _ _ Hga).
    destruct get_github_branch_cases as (o & [H | H]); rewrite H;
      exists o; (split; [reflexivity |]);
      intros args; unfold trace, fst; cbn [In];
      intros Hin; repeat (destruct Hin as [Hin | Hin]; [discriminate Hin |]);
      contradiction.
  - rewrite (git_branch_not_github _ _ Hga), bind_ok.
    rewrite get_ci_branch_eq, por_ok, get_git_branch_eq.
    destruct (truthy (or_chain environ ci_branch_variables));
      eexists; (split; [reflexivity |]);
      intros args; unfold trace, outcome, fst, snd; cbn [app In];
      intros [Hin | Hin]; try discriminate Hin.
    + destruct (no_run_among_reads _ _ Hin).
    + apply in_app_or in Hin. destruct Hin as [Hin | Hin].
      * destruct (no_run_among_reads _ _ Hin).
      * cbn [In] in Hin. destruct Hin as [Hin | []]. congruence.
Qed.

(** X6: outside GitHub Actions, when none of the seven provider variables
    has a value, the branch is what [git rev-parse --abbrev-ref HEAD]
    prints, decoded and stripped; it is [None] when the command exits with a
    non-zero status, cannot be started, or prints what is no UTF-8. *)
Theorem git_branch_asks_repository :
  truthy (environ !! "GITHUB_ACTIONS") = false ->
  first_nonempty environ ci_branch_variables = None ->
  outcome (git_branch environ spawn) = Ok (answer spawn branch_query)
  /\ (answer spawn branch_query = None <->
      match spawn branch_query with
      | Completed cp => decode_utf8 (stdout cp) = None
      | Failed _ _ _ | NotStarted _ => True
      end).
Proof.
  intros Hga Hnone. split.
  - rewrite (git_branch_not_github _ _ Hga), bind_ok.
    rewrite get_ci_branch_eq, por_ok, get_git_branch_eq.
    rewrite (or_chain_none environ _ Hnone). reflexivity.
  - unfold answer. destruct (spawn branch_query) as [cp|rc out err|errno];
      [|tauto..].
    destruct (decode_utf8 (stdout cp)); cbn [fmap option_fmap option_map];
      split; congruence.
Qed.

End Branch.

Lemma get_github_branch_keeps_slashes_witness :
  get_github_branch env_github_slash
    = ([EnvGet "GITHUB_REF"], Ok (Some (lit "feature/x"))).
Proof.
  apply (get_github_branch_keeps_slashes env_github_slash (lit "feature/x")).
  left. reflexivity.
Defined.

Lemma get_github_branch_falls_to_head_ref_witness :
  get_github_branch env_github_pull_ref =
    ([EnvGet "GITHUB_REF"; EnvGet "GITHUB_HEAD_REF"],
     Ok (Some (lit "feature-x"))).
Proof.
  apply (get_github_branch_falls_to_head_ref env_github_pull_ref).
  right. split; reflexivity.
Defined.

Lemma git_branch_github_only_witness :
  exists t o,
    (t = [EnvGet "GITHUB_ACTIONS"; EnvGet "GITHUB_REF"]
     \/ t = [EnvGet "GITHUB_ACTIONS"; EnvGet "GITHUB_REF";
             EnvGet "GITHUB_HEAD_REF"])
    /\ forall spawn', git_branch env_github_slash spawn' = (t, Ok o).
Proof.
  apply (git_branch_github_only env_github_slash). reflexivity.
Defined.

Lemma git_branch_asks_repository_witness :
  outcome (git_branch ∅ two_remotes) = Ok (Some (lit "main")).
Proof.
  refine (proj1 (git_branch_asks_repository ∅ two_remotes _ _));
    vm_compute; reflexivity.
Defined.

(** *** The listing of the remotes *)

Lemma bind_ret_l {E A B} (a : A) (k : A -> M E B) : bind (ret a) k = k a.
Proof. unfold bind, ret. destruct (k a). reflexivity. Qed.

Lemma fetch_remotes_eq (lines : list str) :
  fetch_remotes lines =
    ([], if forallb fetch_line_ok lines
         then Ok (listed_remotes lines)
         else Raise IndexError).
Proof.
  induction lines as [|line rest IH]; [reflexivity |].
  cbn [fetch_remotes forallb]. unfold listed_remotes. cbn [List.filter].
  unfold is_fetch_line at 1, fetch_line_ok at 1.
  destruct (contains (lit "(fetch)") line); cbn [negb orb andb]; [|exact IH].
  cbn [List.map]. fold (listed_remotes rest).
  unfold remote_of_line, getitem. unfold remote_of_fields at 1.
  destruct (split_ws [] line) as [|n [|u fields]]; cbn [length nth_error];
    [reflexivity | reflexivity |].
  change (2 <=? S (S (length fields)))%nat with true. cbn [andb].
  rewrite !bind_ret_l, IH.
  destruct (forallb fetch_line_ok rest); reflexivity.
Qed.

(** X7: the remotes are read off the listing without any effect: one entry
    for each line that holds [(fetch)], in the order of the listing, made of
    the first two fields of the line; the other lines are dropped, and no
    line at all gives the empty list.  A fetch line with fewer than two
    fields raises [IndexError], and nothing else is ever raised. *)
Theorem fetch_remotes_lists_fetch_lines (lines : list str) :
  trace (fetch_remotes lines) = []
  /\ (forallb fetch_line_ok lines = true ->
      outcome (fetch_remotes lines) = Ok (listed_remotes lines)
      /\ length (listed_remotes lines)
         = length (List.filter is_fetch_line lines))
  /\ (forallb fetch_line_ok lines = false ->
      outcome (fetch_remotes lines) = Raise IndexError)
  /\ (List.filter is_fetch_line lines = [] ->
      outcome (fetch_remotes lines) = Ok []).
Proof.
  rewrite fetch_remotes_eq. unfold trace, outcome, fst, snd.
  split; [reflexivity |]. split; [|split].
  - intros ->. split; [reflexivity |].
    unfold listed_remotes. apply length_map.
  - intros ->. reflexivity.
  - intros Hnone.
    assert (Hok : forallb fetch_line_ok lines = true).
    { induction lines as [|line rest IH]; [reflexivity |].
      cbn [List.filter forallb] in *. unfold fetch_line_ok at 1.
      unfold is_fetch_line at 1 in Hnone.
      destruct (contains (lit "(fetch)") line); [discriminate Hnone |].
      cbn [negb orb andb]. exact (IH Hnone). }
    rewrite Hok. unfold listed_remotes. rewrite Hnone. reflexivity.
Qed.

Lemma startswith_app (p s : str) : startswith p (p ++ s) = true.
Proof.
  induction p as [|c p IH]; [reflexivity |].
  cbn [app startswith]. rewrite N.eqb_refl. exact IH.
Qed.

Lemma contains_app (p a s : str) : contains p (a ++ p ++ s) = true.
Proof.
  induction a as [|c a IH]; cbn [app].
  - destruct (p ++ s) eqn:E; cbn [contains]; rewrite <- ?E, startswith_app;
      reflexivity.
  - cbn [contains]. rewrite IH. apply orb_true_r.
Qed.

(** A word is read into the current field. *)
Lemma split_ws_word (w : str) :
  forallb nonspace w = true ->
  forall cur rest, split_ws cur (w ++ rest) = split_ws (rev w ++ cur) rest.
Proof.
  induction w as [|c w IH]; intros Hw cur rest; [reflexivity |].
  cbn [forallb] in Hw. apply andb_true_iff in Hw. destruct Hw as [Hc Hw].
  unfold nonspace in Hc. apply negb_true_iff in Hc.
  cbn [app split_ws rev]. rewrite Hc, (IH Hw), <- app_assoc. reflexivity.
Qed.

(** X8: a line as [git remote -v] prints it, the name, a tab, the URL, a
    space and [(fetch)], gives the entry with that name and that URL, when
    neither is empty or holds whitespace. *)
Theorem fetch_remotes_reads_name_and_url (n u : str) :
  n <> [] -> u <> [] ->
  forallb nonspace n = true -> forallb nonspace u = true ->
  fetch_remotes [n ++ [9%N] ++ u ++ lit " (fetch)"]
    = ([], Ok [{| name := Some n; url := Some u |}]).
Proof.
  intros Hn Hu Wn Wu.
  assert (Hsplit : split_ws [] (n ++ [9%N] ++ u ++ lit " (fetch)")
                   = [n; u; lit "(fetch)"]).
  { rewrite (split_ws_word n Wn), app_nil_r.
    cbn [app split_ws]. change (isspace 9) with true. cbn iota.
    destruct (rev n) as [|c r] eqn:Hr.
    - apply (f_equal (@rev N)) in Hr. rewrite rev_involutive in Hr.
      contradiction.
    - rewrite <- Hr, rev_involutive. f_equal.
      rewrite (split_ws_word u Wu), app_nil_r.
      change (lit " (fetch)") with (32%N :: lit "(fetch)").
      cbn [split_ws]. change (isspace 32) with true. cbn iota.
      destruct (rev u) as [|d r'] eqn:Hr'.
      + apply (f_equal (@rev N)) in Hr'. rewrite rev_involutive in Hr'.
        contradiction.
      + rewrite <- Hr', rev_involutive. reflexivity. }
  assert (Hfetch : contains (lit "(fetch)") (n ++ [9%N] ++ u ++ lit " (fetch)")
                   = true).
  { change (lit " (fetch)") with ([32%N] ++ lit "(fetch)" ++ []).
    rewrite !app_assoc, <- (app_assoc _ (lit "(fetch)") []).
    apply contains_app. }
  rewrite fetch_remotes_eq. cbn [forallb]. unfold fetch_line_ok.
  rewrite Hfetch, Hsplit. cbn [negb orb andb length Nat.leb].
  unfold listed_remotes. cbn [List.filter]. unfold is_fetch_line.
  rewrite Hfetch. cbn [List.map]. unfold remote_of_fields. rewrite Hsplit.
  reflexivity.
Qed.

Lemma fetch_remotes_reads_name_and_url_witness :
  fetch_remotes [lit "origin" ++ [9%N] ++ lit "https://example.com/a.git"
                   ++ lit " (fetch)"]
    = ([], Ok [{| name := Some (lit "origin");
                  url := Some (lit "https://example.com/a.git") |}]).
Proof.
  apply (fetch_remotes_reads_name_and_url (lit "origin")
           (lit "https://example.com/a.git"));
    first [discriminate | reflexivity].
Defined.

Lemma fetch_remotes_lists_fetch_lines_witness :
  outcome (fetch_remotes
             [lit "origin x (fetch)"; lit "origin x (push)";
              lit "fork y (fetch)"])
    = Ok (listed_remotes
            [lit "origin x (fetch)"; lit "origin x (push)";
             lit "fork y (fetch)"]).
Proof.
  apply (proj1 (proj2 (fetch_remotes_lists_fetch_lines _))). reflexivity.
Defined.

(** *** [git_info] *)

Section Info.
Variable environ : gmap string (list N).
Variable spawn : list str -> spawned.

(** X9: when the six log queries and the remote listing complete with
    outputs in the form [git] prints them, [git_info] returns the context of
    the repository: the branch that [git_branch] resolved, the six head
    fields as the stripped outputs of the six queries, and the remotes of the
    listing.  After the resolution of the branch it runs exactly these seven
    commands, in this order; it reads no variable of the fallback and logs
    nothing. *)
Theorem git_info_from_repository (i an ae cn ce m out : str) :
  answer spawn (log_query (lit "%H")) = Some i ->
  answer spawn (log_query (lit "%aN")) = Some an ->
  answer spawn (log_query (lit "%ae")) = Some ae ->
  answer spawn (log_query (lit "%cN")) = Some cn ->
  answer spawn (log_query (lit "%ce")) = Some ce ->
  answer spawn (log_query (lit "%s")) = Some m ->
  answer spawn remote_query = Some out ->
  forallb fetch_line_ok (splitlines out) = true ->
  exists b,
    outcome (git_branch environ spawn) = Ok b /\
    git_info environ spawn =
      (trace (git_branch environ spawn) ++ List.map Run head_queries,
       Ok (GitDict
             {| branch := b;
                head := {| id := Some i; author_name := Some an;
                           author_email := Some ae; committer_name := Some cn;
                           committer_email := Some ce; message := Some m |};
                remotes := listed_remotes (splitlines out) |})).
Proof.
  intros Hi Han Hae Hcn Hce Hm Hout Hok.
  destruct (git_branch_returns environ spawn) as (b & Hb).
  exists b. split; [exact Hb |].
  unfold git_info, git_info_try.
  destruct (git_branch environ spawn) as [tb rb].
  unfold outcome, snd in Hb. subst rb. unfold trace at 1, fst.
  change (gitlog spawn) with (fun fmt => run_command spawn (log_query fmt)).
  cbn beta.
  change (run_command spawn [lit "git"; lit "remote"; lit "-v"])
    with (run_command spawn remote_query).
  rewrite bind_ok.
  rewrite (bind_answer _ _ _ _ Hi). cbn [trace outcome fst snd].
  rewrite (bind_answer _ _ _ _ Han). cbn [trace outcome fst snd].
  rewrite (bind_answer _ _ _ _ Hae). cbn [trace outcome fst snd].
  rewrite (bind_answer _ _ _ _ Hcn). cbn [trace outcome fst snd].
  rewrite (bind_answer _ _ _ _ Hce). cbn [trace outcome fst snd].
  rewrite (bind_answer _ _ _ _ Hm). cbn [trace outcome fst snd].
  rewrite (bind_answer _ _ _ _ Hout). cbn [trace outcome fst snd].
  rewrite fetch_remotes_eq, Hok, !bind_ok.
  cbn [trace outcome fst snd ret app].
  rewrite bind_ok. cbn [trace outcome fst snd ret]. rewrite app_nil_r.
  reflexivity.
Qed.

(** When no command of the head stage fails, the [try] of [git_info]
    returns, or ends on one of the two exceptions of a malformed output. *)
Lemma git_info_try_without_failure :
  vcs_fails spawn = false ->
  (exists g, outcome (git_info_try environ spawn) = Ok g)
  \/ outcome (git_info_try environ spawn) = Raise UnicodeDecodeError
  \/ outcome (git_info_try environ spawn) = Raise IndexError.
Proof.
  unfold vcs_fails, head_queries, git_info_try.
  destruct (git_branch_returns environ spawn) as (b & Hb).
  rewrite outcome_bind, Hb.
  change (gitlog spawn) with (fun fmt => run_command spawn (log_query fmt)).
  cbn beta.
  change (run_command spawn [lit "git"; lit "remote"; lit "-v"])
    with (run_command spawn remote_query).
  cbn [reaches_failure].
  do 7 (rewrite outcome_bind_run_command;
        match goal with
        | |- _ -> (exists g, match spawn ?q with _ => _ end = _) \/ _ =>
            destruct (spawn q) as [?cp|? ? ?|?] eqn:?
        end;
        [ match goal with
          | |- context [decode_utf8 (stdout ?c)] =>
              destruct (decode_utf8 (stdout c)) eqn:?
          end;
          [| intros _; right; left; reflexivity]
        | intros Hf; discriminate Hf
        | intros Hf; discriminate Hf ]).
  intros _. rewrite outcome_bind, fetch_remotes_eq. cbn [outcome snd].
  match goal with |- context [forallb ?f ?l] => destruct (forallb f l) end.
  - left. eexists. reflexivity.
  - right. right. reflexivity.
Qed.

(** X10: [git_info] returns the empty context exactly when a command of the
    head stage fails and one of the six head variables is unset or empty. *)
Theorem git_info_empty_iff :
  outcome (git_info environ spawn) = Ok EmptyDict <->
  vcs_fails spawn = true /\
  forallb (fun k => truthy (environ !! k)) head_variables = false.
Proof.
  pose proof (git_info_except_eq environ) as Heq. cbv zeta in Heq.
  change (forallb (fun k => truthy (environ !! k)) head_variables)
    with (all_truthy
            (head_values
               {| id := environ !! "GIT_ID";
                  author_name := environ !! "GIT_AUTHOR_NAME";
                  author_email := environ !! "GIT_AUTHOR_EMAIL";
                  committer_name := environ !! "GIT_COMMITTER_NAME";
                  committer_email := environ !! "GIT_COMMITTER_EMAIL";
                  message := environ !! "GIT_MESSAGE" |})).
  destruct (vcs_fails spawn) eqn:Hf.
  - destruct (git_info_try_raises environ spawn Hf) as (e & He & Hc).
    rewrite (git_info_fallback environ spawn e He Hc), Heq.
    unfold outcome at 1, snd.
    match goal with |- context [all_truthy ?l] => destruct (all_truthy l) end;
      cbn [outcome snd]; split.
    + intros H. discriminate H.
    + intros [_ H]. discriminate H.
    + intros _. split; reflexivity.
    + intros _. reflexivity.
  - split; [|intros [H _]; discriminate H].
    unfold git_info. rewrite outcome_try, outcome_bind.
    destruct (git_info_try_without_failure Hf) as [(g & ->) | [-> | ->]];
      cbn [outcome snd ret orb is_CoverallsException is_OSError];
      intros H; discriminate H.
Qed.

(** X11: the only exceptions that leave [git_info] are the
    [UnicodeDecodeError] of an output that does not decode and the
    [IndexError] of a fetch line with fewer than two fields, and only when no
    command of the head stage failed: neither a [CoverallsException] nor an
    [OSError] ever leaves it. *)
Theorem git_info_raises_only_on_malformed_output (e : exn) :
  outcome (git_info environ spawn) = Raise e ->
  (e = UnicodeDecodeError \/ e = IndexError)
  /\ vcs_fails spawn = false
  /\ wellformed_output spawn = false.
Proof.
  intros Hr.
  assert (Hf : vcs_fails spawn = false).
  { destruct (vcs_fails spawn) eqn:Hf; [|reflexivity].
    destruct (git_info_recovers_failure environ spawn Hf) as (r & Hok).
    congruence. }
  split; [|split; [exact Hf |]].
  - revert Hr. unfold git_info. rewrite outcome_try, outcome_bind.
    destruct (git_info_try_without_failure Hf) as [(g & ->) | [-> | ->]];
      cbn [outcome snd ret orb is_CoverallsException is_OSError];
      intros H; [discriminate H | injection H as <- | injection H as <-];
      tauto.
  - destruct (wellformed_output spawn) eqn:Hw; [|reflexivity].
    destruct (git_info_try_returns environ spawn Hw Hf) as (g & Hg).
    revert Hr. unfold git_info. rewrite outcome_try, outcome_bind, Hg.
    intros H. discriminate H.
Qed.

End Info.

(** X12: when a command of the head stage fails, what [git_info] returns
    is decided by the nine variables [GIT_BRANCH], [GIT_ID],
    [GIT_AUTHOR_NAME], [GIT_AUTHOR_EMAIL], [GIT_COMMITTER_NAME],
    [GIT_COMMITTER_EMAIL], [GIT_MESSAGE], [GIT_REMOTE], [GIT_URL] alone: not
    by which command failed or how, and not by the variables of the CI
    provider, from which the branch was resolved before. *)
Theorem git_info_fallback_reads_nine_variables
    (environ environ' : gmap string (list N))
    (spawn spawn' : list str -> spawned) :
  vcs_fails spawn = true -> vcs_fails spawn' = true ->
  (forall k, In k ("GIT_BRANCH" :: fallback_variables) ->
             environ !! k = environ' !! k) ->
  outcome (git_info environ spawn) = outcome (git_info environ' spawn').
Proof.
  intros Hf Hf' Hsame.
  destruct (git_info_try_raises environ spawn Hf) as (e & He & Hc).
  destruct (git_info_try_raises environ' spawn' Hf') as (e' & He' & Hc').
  rewrite (git_info_fallback environ spawn e He Hc).
  rewrite (git_info_fallback environ' spawn' e' He' Hc').
  pose proof (git_info_except_eq environ e) as Heq.
  pose proof (git_info_except_eq environ' e') as Heq'.
  cbv zeta in Heq, Heq'. rewrite Heq, Heq'.
  unfold fallback_variables, head_variables in Hsame. cbn [app In] in Hsame.
  rewrite <- !Hsame by tauto.
  match goal with |- context [all_truthy ?l] => destruct (all_truthy l) end;
    reflexivity.
Qed.

Lemma git_info_from_repository_witness :
  exists g,
    outcome (git_info ∅ two_remotes) = Ok (GitDict g) /\
    id (head g) = Some (lit "main") /\
    List.map name (remotes g) = [Some (lit "origin"); Some (lit "fork")].
Proof.
  edestruct (git_info_from_repository ∅ two_remotes) as (b & Hb & Heq);
    [vm_compute; reflexivity ..|].
  rewrite Heq. eexists. split; [reflexivity |].
  split; vm_compute; reflexivity.
Defined.

Lemma git_info_raises_only_on_malformed_output_witness :
  (UnicodeDecodeError = UnicodeDecodeError \/ UnicodeDecodeError = IndexError)
  /\ vcs_fails latin1_author = false
  /\ wellformed_output latin1_author = false.
Proof.
  apply (git_info_raises_only_on_malformed_output ∅ latin1_author).
  vm_compute. reflexivity.
Defined.

Lemma git_info_fallback_reads_nine_variables_witness :
  outcome (git_info env_all_eight no_git)
    = outcome (git_info env_all_eight_on_circle not_a_repository).
Proof.
  apply git_info_fallback_reads_nine_variables.
  - reflexivity.
  - reflexivity.
  - intros k Hk. unfold fallback_variables, head_variables in Hk.
    cbn [app In] in Hk.
    repeat (destruct Hk as [<- | Hk]; [vm_compute; reflexivity |]).
    contradiction.
Defined.

End GitExtra.

(** ** More on the submission orchestrator *)

Module CliExtra.
Import Py Eff Cli CliSpec GitProps FallbackProps CliProps.

Lemma set_verbose_select (options : Options) :
  select_mode (if debug options then set_verbose options else options)
    = select_mode options.
Proof. destruct (debug options); reflexivity. Qed.

Section World.
Variable Obj : Type.
Variable Coveralls :
  bool -> option str -> option str -> str -> str -> result Obj.
Variable api_merge : Obj -> option str -> result unit.
Variable api_wear : Obj -> bool -> result (gmap string (list N)).
Variable api_save_report : Obj -> option str -> result unit.
Variable api_submit_report : Obj -> str -> result unit.
Variable api_parallel_finish : Obj -> result unit.
Variable metadata_version : result str.
Variable docopt : option (list str) -> str -> result Options.
Variable read_file : option str -> result str.

Local Abbreviation handler := (handler_of Obj api_merge api_wear
  api_save_report api_submit_report api_parallel_finish read_file).
Local Abbreviation setup := (setup_coveralls Obj Coveralls).
Local Abbreviation try_body := (main_try Obj Coveralls api_merge api_wear
  api_save_report api_submit_report api_parallel_finish read_file).
Local Abbreviation run := (main Obj Coveralls api_merge api_wear
  api_save_report api_submit_report api_parallel_finish metadata_version
  docopt read_file).

(** The options as [main] uses them, [--verbose] forced by [debug]. *)
Local Abbreviation effective := (fun options : Options =>
  if debug options then set_verbose options else options).

Ltac case_collaborators :=
  repeat match goal with
         | |- context [api_wear ?c ?b] => destruct (api_wear c b)
         | |- context [api_merge ?c ?p] => destruct (api_merge c p)
         | |- context [api_save_report ?c ?p] => destruct (api_save_report c p)
         | |- context [read_file ?p] => destruct (read_file p)
         | |- context [api_submit_report ?c ?p] =>
             destruct (api_submit_report c p)
         | |- context [api_parallel_finish ?c] =>
             destruct (api_parallel_finish c)
         | |- context [decide (?a = ?b)] => destruct (decide (a = b))
         end.

Ltac run_handler :=
  unfold handle_debug, handle_output, handle_submit, handle_finish,
    handle_default;
  rewrite ?call_eq, ?log_info_eq;
  case_collaborators;
  repeat (rewrite ?bind_ok, ?bind_raise, ?call_eq;
          cbn [trace outcome fst snd app]; case_collaborators);
  unfold emit, ret; rewrite ?bind_ok; cbn [trace outcome fst snd app].

Lemma setup_eq (options : Options) :
  setup options =
    ([AddHandler; SetLevel (if verbose options then DEBUG else INFO);
      New (token_required options) (rcfile options) (service options)
        (or_empty (basedir options)) (or_empty (srcdir options))],
     Coveralls (token_required options) (rcfile options) (service options)
       (or_empty (basedir options)) (or_empty (srcdir options))).
Proof.
  unfold setup_coveralls, emit. rewrite call_eq, !bind_ok. reflexivity.
Qed.

Lemma try_body_trace (options : Options) :
  trace (try_body options) =
    trace (setup options)
    ++ match outcome (setup options) with
       | Ok coverallz => trace (handler options coverallz (select_mode options))
       | Raise _ => []
       end.
Proof.
  rewrite (main_try_eq Obj Coveralls api_merge api_wear api_save_report
             api_submit_report api_parallel_finish read_file).
  apply trace_bind.
Qed.

(** The trace of [main]: the two calls before the [try], the body of the
    [try], and at most one line logged by an [except] clause. *)
Lemma main_trace (argv : option (list str)) (version : str)
    (options : Options) :
  metadata_version = Ok version ->
  docopt argv version = Ok options ->
  exists tail,
    trace (run argv) =
      [Version; Docopt argv version]
      ++ trace (try_body (effective options)) ++ tail
    /\ existsb is_dispatch tail = false
    /\ existsb is_api_call tail = false.
Proof.
  intros Hv Hd.
  rewrite (main_eq Obj Coveralls api_merge api_wear api_save_report
             api_submit_report api_parallel_finish metadata_version docopt
             read_file argv version options Hv Hd).
  rewrite bind_ok, trace_try. unfold trace at 1, fst.
  destruct (outcome (try_body (effective options))) as [u|e].
  - exists []. repeat split; reflexivity.
  - destruct (is_KeyboardInterrupt e || is_Exception e);
      [|exists []; repeat split; reflexivity].
    unfold main_except. destruct (is_KeyboardInterrupt e).
    + eexists. split; [reflexivity | split; reflexivity].
    + unfold emit. rewrite bind_ok.
      eexists. split; [reflexivity | split; reflexivity].
Qed.

Lemma handler_dispatch_modes (options : Options) (coverallz : Obj)
    (mode : Mode) :
  existsb is_dispatch (trace (handler options coverallz mode)) = true ->
  mode = SubmitFile \/ mode = Default.
Proof.
  destruct mode; cbn [handler_of]; try tauto; run_handler;
    cbn [existsb is_dispatch orb]; intros H; discriminate H.
Qed.

Lemma handler_api_calls (options : Options) (coverallz : Obj) (mode : Mode) :
  (length (List.filter is_api_call (trace (handler options coverallz mode)))
   <= 1)%nat.
Proof.
  destruct mode; cbn [handler_of]; run_handler;
    cbn [List.filter is_api_call length]; lia.
Qed.

(** X13: the [debug] command forces verbose logging and lifts the token
    requirement: whatever [--verbose] says, the level is set to [DEBUG] and
    the [Coveralls] object is built with [token_required=False], before
    anything else happens. *)
Theorem debug_forces_verbose (argv : option (list str)) (version : str)
    (options : Options) :
  metadata_version = Ok version ->
  docopt argv version = Ok options ->
  debug options = true ->
  exists rest,
    trace (run argv) =
      [Version; Docopt argv version; AddHandler; SetLevel DEBUG;
       New false (rcfile options) (service options)
         (or_empty (basedir options)) (or_empty (srcdir options))]
      ++ rest.
Proof.
  intros Hv Hd Hdebug.
  destruct (main_trace argv version options Hv Hd) as (tail & -> & _).
  rewrite try_body_trace, setup_eq, Hdebug.
  unfold trace at 1, fst. unfold token_required.
  cbn [debug verbose set_verbose rcfile service basedir srcdir output].
  rewrite Hdebug. cbn [negb andb app].
  eexists. reflexivity.
Qed.

(** X14: when the construction of the [Coveralls] object raises an
    exception derived from [Exception] (the token is required and missing),
    no handler runs and no method is called: the exception is logged and
    [main] exits with status one. *)
Theorem constructor_failure_ends_the_run (argv : option (list str))
    (version : str) (options : Options) (e : exn) :
  metadata_version = Ok version ->
  docopt argv version = Ok options ->
  Coveralls (token_required options) (rcfile options) (service options)
    (or_empty (basedir options)) (or_empty (srcdir options)) = Raise e ->
  is_Exception e = true ->
  run argv =
    ([Version; Docopt argv version; AddHandler;
      SetLevel (if debug options || verbose options then DEBUG else INFO);
      New (token_required options) (rcfile options) (service options)
        (or_empty (basedir options)) (or_empty (srcdir options));
      LogException "Error running coveralls: %s" e],
     Raise (SystemExit 1))
  /\ existsb is_api_call (trace (run argv)) = false.
Proof.
  intros Hv Hd Hc He.
  assert (Hrun : run argv =
    ([Version; Docopt argv version; AddHandler;
      SetLevel (if debug options || verbose options then DEBUG else INFO);
      New (token_required options) (rcfile options) (service options)
        (or_empty (basedir options)) (or_empty (srcdir options));
      LogException "Error running coveralls: %s" e],
     Raise (SystemExit 1))).
  { rewrite (main_eq Obj Coveralls api_merge api_wear api_save_report
               api_submit_report api_parallel_finish metadata_version docopt
               read_file argv version options Hv Hd).
    rewrite bind_ok. unfold main_try. rewrite setup_eq.
    assert (Hsame :
      Coveralls (token_required (effective options))
        (rcfile (effective options)) (service (effective options))
        (or_empty (basedir (effective options)))
        (or_empty (srcdir (effective options))) = Raise e).
    { destruct (debug options) eqn:Hdebug; [|exact Hc].
      revert Hc. unfold token_required.
      cbn [debug verbose set_verbose rcfile service basedir srcdir output].
      rewrite Hdebug. exact (fun H => H). }
    rewrite Hsame, bind_raise.
    rewrite try_caught by (rewrite He; apply orb_true_r).
    unfold main_except.
    destruct (is_KeyboardInterrupt e) eqn:Hk; [destruct e; discriminate |].
    unfold emit. rewrite bind_ok.
    unfold token_required.
    destruct (debug options) eqn:Hdebug;
      cbn [debug verbose set_verbose rcfile service basedir srcdir output
           trace outcome fst snd app orb];
      rewrite ?Hdebug; reflexivity. }
  split; [exact Hrun |]. rewrite Hrun. reflexivity.
Qed.

(** X15: a report goes out to the service only in a run that [--submit]
    or no option selects.  With the [debug] command or [--output] nothing is
    ever sent, whatever else is given and whatever the collaborators do. *)
Theorem main_dispatches_only_to_submit (argv : option (list str))
    (version : str) (options : Options) :
  metadata_version = Ok version ->
  docopt argv version = Ok options ->
  (existsb is_dispatch (trace (run argv)) = true ->
   select_mode options = SubmitFile \/ select_mode options = Default)
  /\ (debug options = true \/ truthy (output options) = true ->
      existsb is_dispatch (trace (run argv)) = false).
Proof.
  intros Hv Hd.
  assert (Hmodes : existsb is_dispatch (trace (run argv)) = true ->
                   select_mode options = SubmitFile
                   \/ select_mode options = Default).
  { destruct (main_trace argv version options Hv Hd) as (tail & -> & Ht & _).
    rewrite try_body_trace, setup_eq, !existsb_app, Ht, orb_false_r.
    unfold trace at 1, outcome, fst, snd. cbn [existsb is_dispatch orb].
    destruct (Coveralls _ _ _ _ _) as [c|e]; [|intros H; discriminate H].
    rewrite set_verbose_select. apply handler_dispatch_modes. }
  split; [exact Hmodes |].
  intros Hopt.
  destruct (existsb is_dispatch (trace (run argv))) eqn:Hex; [|reflexivity].
  exfalso. specialize (Hmodes eq_refl). revert Hmodes. unfold select_mode.
  destruct Hopt as [-> | ->];
    destruct (truthy (merge options)), (debug options);
    intros [H | H]; discriminate H.
Qed.

(** X16: in a run that [--submit] selects, the text of the file is handed
    to [submit_report] as it was read, and this is the only method called:
    the report is not assembled again.  When the file cannot be read,
    nothing is submitted: no method is called, the error is logged and
    [main] exits with status one. *)
Theorem submit_run_passes_the_file_on (argv : option (list str))
    (version : str) (options : Options) (coverallz : Obj) :
  metadata_version = Ok version ->
  docopt argv version = Ok options ->
  select_mode options = SubmitFile ->
  Coveralls true (rcfile options) (service options)
    (or_empty (basedir options)) (or_empty (srcdir options)) = Ok coverallz ->
  match read_file (submit options) with
  | Ok content =>
      List.filter is_api_call (trace (run argv)) = [CallSubmitReport content]
  | Raise e =>
      List.filter is_api_call (trace (run argv)) = []
      /\ (is_Exception e = true ->
          outcome (run argv) = Raise (SystemExit 1)
          /\ In (LogException "Error running coveralls: %s" e)
                (trace (run argv)))
  end.
Proof.
  intros Hv Hd Hmode Hc.
  assert (Hopts : truthy (merge options) = false /\ debug options = false
                  /\ truthy (output options) = false).
  { revert Hmode. unfold select_mode.
    destruct (truthy (merge options)), (debug options),
      (truthy (output options)), (truthy (submit options)), (finish options);
      intros H; try discriminate H; tauto. }
  destruct Hopts as (Hm & Hdebug & Ho).
  rewrite (main_eq Obj Coveralls api_merge api_wear api_save_report
             api_submit_report api_parallel_finish metadata_version docopt
             read_file argv version options Hv Hd).
  rewrite Hdebug, main_try_eq, setup_eq, Hmode. unfold token_required.
  rewrite Hdebug, Ho. cbn [negb andb]. rewrite Hc.
  rewrite !bind_ok. cbn beta. cbn [handler_of]. unfold handle_submit.
  rewrite !call_eq.
  destruct (read_file (submit options)) as [content|e].
  - rewrite !bind_ok, call_eq. cbn [trace outcome fst snd app].
    destruct (api_submit_report coverallz content) as [[]|e'].
    + reflexivity.
    + unfold try_except, main_except.
      destruct (is_KeyboardInterrupt e' || is_Exception e'); [|reflexivity].
      destruct (is_KeyboardInterrupt e'); reflexivity.
  - rewrite !bind_raise. cbn [trace outcome fst snd app]. split.
    + unfold try_except, main_except.
      destruct (is_KeyboardInterrupt e || is_Exception e); [|reflexivity].
      destruct (is_KeyboardInterrupt e); reflexivity.
    + intros He.
      rewrite try_caught by (rewrite He; apply orb_true_r).
      unfold main_except.
      destruct (is_KeyboardInterrupt e) eqn:Hk; [destruct e; discriminate |].
      unfold emit. rewrite bind_ok. cbn [trace outcome fst snd app].
      split; [reflexivity |].
      cbn [In]. tauto.
Qed.

(** X17: a run without any of the five options, in which the object is
    built and [wear] returns, is the default submission: the token is
    required, [wear] is called without [dry_run], [Coverage submitted!] is
    logged, then the message and the URL of the result when the result is
    not empty (a missing key is logged as [None]), and [main] returns
    normally. *)
Theorem default_run_submits_and_reports (argv : option (list str))
    (version : str) (options : Options) (coverallz : Obj)
    (result : gmap string (list N)) :
  metadata_version = Ok version ->
  docopt argv version = Ok options ->
  no_action options ->
  Coveralls true (rcfile options) (service options)
    (or_empty (basedir options)) (or_empty (srcdir options)) = Ok coverallz ->
  api_wear coverallz false = Ok result ->
  run argv =
    ([Version; Docopt argv version; AddHandler;
      SetLevel (if verbose options then DEBUG else INFO);
      New true (rcfile options) (service options)
        (or_empty (basedir options)) (or_empty (srcdir options));
      LogInfo (Text "Submitting coverage to coveralls.io...");
      CallWear false; LogInfo (Text "Coverage submitted!");
      LogDebug (Dict result)]
     ++ (if decide (result = ∅) then []
         else [LogInfo (Value (result !! "message"));
               LogInfo (Value (result !! "url"))]),
     Ok tt).
Proof.
  intros Hv Hd Hnone Hc Hw.
  pose proof (proj2 (select_mode_default options) Hnone) as Hmode.
  destruct Hnone as (Hm & Hdebug & Ho & Hs & Hf).
  rewrite (main_eq Obj Coveralls api_merge api_wear api_save_report
             api_submit_report api_parallel_finish metadata_version docopt
             read_file argv version options Hv Hd).
  rewrite Hdebug, main_try_eq, setup_eq, Hmode. unfold token_required.
  rewrite Hdebug, Ho. cbn [negb andb]. rewrite Hc.
  rewrite !bind_ok. cbn beta. cbn [handler_of]. unfold handle_default.
  rewrite !call_eq, !log_info_eq, Hw, !bind_ok. unfold emit.
  destruct (decide (result = ∅)); rewrite ?bind_ok; reflexivity.
Qed.

(** X18: in every run, whatever the arguments, the options and the
    collaborators, at most one method of the [Coveralls] object is called. *)
Theorem main_calls_at_most_one_method (argv : option (list str)) :
  (length (List.filter is_api_call (trace (run argv))) <= 1)%nat.
Proof.
  assert (Hver : (exists version, metadata_version = Ok version)
                 \/ (exists e, metadata_version = Raise e)).
  { destruct metadata_version; eauto. }
  destruct Hver as [(version & Hv) | (e & Hv)].
  - assert (Hopt : (exists options, docopt argv version = Ok options)
                   \/ (exists e, docopt argv version = Raise e)).
    { destruct (docopt argv version); eauto. }
    destruct Hopt as [(options & Hd) | (e & Hd)].
    + destruct (main_trace argv version options Hv Hd) as (tail & -> & _ & Ht).
      rewrite try_body_trace, setup_eq, !List.filter_app, !length_app.
      assert (Htail : List.filter is_api_call tail = []).
      { clear -Ht. induction tail as [|ev tail IH]; [reflexivity |].
        cbn [existsb List.filter] in *.
        destruct (is_api_call ev); [discriminate Ht | exact (IH Ht)]. }
      rewrite Htail. unfold trace at 1, outcome, fst, snd.
      cbn [List.filter is_api_call length Nat.add].
      destruct (Coveralls _ _ _ _ _) as [c|e];
        [|cbn [List.filter length]; lia].
      pose proof (handler_api_calls (effective options) c
                    (select_mode (effective options))).
      lia.
    + unfold main. rewrite !call_eq, Hv, bind_ok. cbn [trace outcome fst snd].
      rewrite call_eq, Hd, bind_raise.
      cbn [trace fst app List.filter is_api_call length]. lia.
  - unfold main. rewrite !call_eq, Hv, bind_raise.
    cbn [trace fst List.filter is_api_call length]. lia.
Qed.

End World.

Lemma debug_forces_verbose_witness :
  exists rest,
    trace (main_in_good_world options_debug None) =
      [Version; Docopt None (lit "4.0.1"); AddHandler; SetLevel DEBUG;
       New false (Some (lit ".coveragerc")) None [] []]
      ++ rest.
Proof.
  refine (debug_forces_verbose unit _ _ _ _ _ _ _ _ _
            None (lit "4.0.1") options_debug eq_refl eq_refl eq_refl).
Defined.

Lemma main_dispatches_only_to_submit_witness :
  existsb is_dispatch (trace (main_in_good_world options_debug None)) = false.
Proof.
  refine (proj2 (main_dispatches_only_to_submit unit _ _ _ _ _ _ _ _ _
                   None (lit "4.0.1") options_debug eq_refl eq_refl) _).
  left. reflexivity.
Defined.

Lemma constructor_failure_ends_the_run_witness :
  main_without_token no_options None =
    ([Version; Docopt None (lit "4.0.1"); AddHandler; SetLevel INFO;
      New true (Some (lit ".coveragerc")) None [] [];
      LogException "Error running coveralls: %s"
        (OtherException "CoverallsException")],
     Raise (SystemExit 1))
  /\ existsb is_api_call (trace (main_without_token no_options None)) = false.
Proof.
  refine (constructor_failure_ends_the_run unit _ _ _ _ _ _ _ _ _
            None (lit "4.0.1") no_options (OtherException "CoverallsException")
            eq_refl eq_refl eq_refl eq_refl).
Defined.

Lemma submit_run_passes_the_file_on_witness :
  List.filter is_api_call (trace (main_in_good_world options_submit None))
    = [CallSubmitReport (lit "{}")]
  /\ List.filter is_api_call (trace (main_without_file options_submit None))
     = [].
Proof.
  split.
  - exact (submit_run_passes_the_file_on unit
             (fun _ _ _ _ _ => Ok tt) (fun _ _ => Ok tt)
             (fun _ _ => Ok job_accepted)
             (fun _ _ => Ok tt) (fun _ _ => Ok tt) (fun _ => Ok tt)
             (Ok (lit "4.0.1")) (fun _ _ => Ok options_submit)
             (fun _ => Ok (lit "{}"))
             None (lit "4.0.1") options_submit tt
             eq_refl eq_refl eq_refl eq_refl).
  - exact (proj1 (submit_run_passes_the_file_on unit
             (fun _ _ _ _ _ => Ok tt) (fun _ _ => Ok tt)
             (fun _ _ => Ok job_accepted)
             (fun _ _ => Ok tt) (fun _ _ => Ok tt) (fun _ => Ok tt)
             (Ok (lit "4.0.1")) (fun _ _ => Ok options_submit)
             (fun _ => Raise (OSError 2))
             None (lit "4.0.1") options_submit tt
             eq_refl eq_refl eq_refl eq_refl)).
Defined.

Lemma default_run_submits_and_reports_witness :
  main_in_good_world no_options None =
    ([Version; Docopt None (lit "4.0.1"); AddHandler; SetLevel INFO;
      New true (Some (lit ".coveragerc")) None [] [];
      LogInfo (Text "Submitting coverage to coveralls.io...");
      CallWear false; LogInfo (Text "Coverage submitted!");
      LogDebug (Dict job_accepted)]
     ++ (if decide (job_accepted = ∅) then []
         else [LogInfo (Value (job_accepted !! "message"));
               LogInfo (Value (job_accepted !! "url"))]),
     Ok tt).
Proof.
  refine (default_run_submits_and_reports unit _ _ _ _ _ _ _ _ _
            None (lit "4.0.1") no_options tt job_accepted
            eq_refl eq_refl _ eq_refl eq_refl).
  unfold no_action. repeat split; reflexivity.
Defined.

End CliExtra.

(** ** The whole run of [main] *)

Module CliRun.
Import Py Eff Cli CliSpec GitProps FallbackProps CliProps CliExtra.

Lemma handler_of_effective {Obj : Type}
    (api_merge : Obj -> option str -> result unit)
    (api_wear : Obj -> bool -> result (gmap string (list N)))
    (api_save_report : Obj -> option str -> result unit)
    (api_submit_report : Obj -> str -> result unit)
    (api_parallel_finish : Obj -> result unit)
    (read_file : option str -> result str)
    (options : Options) (coverallz : Obj) (mode : Mode) :
  handler_of Obj api_merge api_wear api_save_report api_submit_report
    api_parallel_finish read_file
    (if debug options then set_verbose options else options) coverallz mode
  = handler_of Obj api_merge api_wear api_save_report api_submit_report
      api_parallel_finish read_file options coverallz mode.
Proof. destruct (debug options); destruct mode; reflexivity. Qed.

Section World.
Variable Obj : Type.
Variable Coveralls :
  bool -> option str -> option str -> str -> str -> result Obj.
Variable api_merge : Obj -> option str -> result unit.
Variable api_wear : Obj -> bool -> result (gmap string (list N)).
Variable api_save_report : Obj -> option str -> result unit.
Variable api_submit_report : Obj -> str -> result unit.
Variable api_parallel_finish : Obj -> result unit.
Variable metadata_version : result str.
Variable docopt : option (list str) -> str -> result Options.
Variable read_file : option str -> result str.

Local Abbreviation handler := (handler_of Obj api_merge api_wear
  api_save_report api_submit_report api_parallel_finish read_file).
Local Abbreviation run := (main Obj Coveralls api_merge api_wear
  api_save_report api_submit_report api_parallel_finish metadata_version
  docopt read_file).

(** [main], once the version was found, the arguments were parsed and the
    object was built: the handler of the selected mode under the two
    [except] clauses, and nothing else. *)
Lemma main_reaches_dispatch (argv : option (list str)) (version : str)
    (options : Options) (coverallz : Obj) :
  metadata_version = Ok version ->
  docopt argv version = Ok options ->
  Coveralls (token_required options) (rcfile options) (service options)
    (or_empty (basedir options)) (or_empty (srcdir options)) = Ok coverallz ->
  run argv =
    bind (preamble argv version options, Ok tt)
      (fun _ =>
         try_except (handler options coverallz (select_mode options))
           (fun e => is_KeyboardInterrupt e || is_Exception e)
           main_except).
Proof.
  intros Hv Hd Hc.
  rewrite (main_eq Obj Coveralls api_merge api_wear api_save_report
             api_submit_report api_parallel_finish metadata_version docopt
             read_file argv version options Hv Hd).
  rewrite (main_try_eq Obj Coveralls api_merge api_wear api_save_report
             api_submit_report api_parallel_finish read_file).
  rewrite (setup_eq Obj Coveralls), set_verbose_select.
  assert (Hsame :
    Coveralls
      (token_required (if debug options then set_verbose options else options))
      (rcfile (if debug options then set_verbose options else options))
      (service (if debug options then set_verbose options else options))
      (or_empty
         (basedir (if debug options then set_verbose options else options)))
      (or_empty
         (srcdir (if debug options then set_verbose options else options)))
    = Ok coverallz).
  { destruct (debug options) eqn:Hdebug; [|exact Hc].
    revert Hc. unfold token_required.
    cbn [debug verbose set_verbose rcfile service basedir srcdir output].
    rewrite Hdebug. exact (fun H => H). }
  rewrite Hsame, (bind_ok _ coverallz). cbn beta.
  rewrite handler_of_effective.
  destruct (handler options coverallz (select_mode options)) as [t r].
  unfold preamble, token_required, try_except.
  rewrite !bind_ok. cbn [trace outcome fst snd app].
  assert (Hlevel :
    (if verbose (if debug options then set_verbose options else options)
     then DEBUG else INFO)
    = (if debug options || verbose options then DEBUG else INFO)).
  { destruct (debug options); reflexivity. }
  assert (Hfields :
    forall o, o = (if debug options then set_verbose options else options) ->
      debug o = debug options /\ output o = output options
      /\ rcfile o = rcfile options /\ service o = service options
      /\ basedir o = basedir options /\ srcdir o = srcdir options).
  { intros o ->. destruct (debug options) eqn:Hdebug; cbn; rewrite ?Hdebug;
      repeat split; reflexivity. }
  destruct (Hfields _ eq_refl) as (-> & -> & -> & -> & -> & ->).
  rewrite Hlevel.
  destruct r as [u|e]; [reflexivity |].
  destruct (is_KeyboardInterrupt e || is_Exception e); [|reflexivity].
  destruct (main_except e). reflexivity.
Qed.

(** No event of the preamble, and no line of an [except] clause, is the
    first event of a handler. *)
Lemma preamble_starts_no_handler (argv : option (list str)) (version : str)
    (options : Options) (mode : Mode) :
  ~ In (first_event options mode) (preamble argv version options).
Proof.
  unfold preamble. cbn [In]. destruct mode; cbn [first_event];
    intros H; repeat (destruct H as [H | H]; [discriminate H |]);
    exact H.
Qed.

Lemma except_starts_no_handler (options : Options) (mode : Mode) (e : exn) :
  ~ In (first_event options mode) (trace (main_except e)).
Proof.
  unfold main_except, log_info, emit.
  destruct (is_KeyboardInterrupt e); rewrite ?bind_ok;
    cbn [trace outcome fst snd app raise In];
    destruct mode; cbn [first_event];
    intros H; repeat (destruct H as [H | H]; [discriminate H |]);
    exact H.
Qed.

(** C6, amended: in every run of [main] in which the version is found, the
    arguments are parsed and the [Coveralls] object is built, exactly one
    mode runs.  The options are taken in the order merge, debug, output,
    submit, finish; the run is the preamble, then the handler of the first
    option that is given (the default handler when none is), then nothing
    but the [except] clauses of [main]: the handler ends the run.  The trace
    of the run holds the first event of the selected handler right after the
    preamble and the first event of no other handler, and the default
    handler runs if and only if none of the five options is given. *)
Theorem main_runs_exactly_one_handler (argv : option (list str))
    (version : str) (options : Options) (coverallz : Obj) :
  metadata_version = Ok version ->
  docopt argv version = Ok options ->
  Coveralls (token_required options) (rcfile options) (service options)
    (or_empty (basedir options)) (or_empty (srcdir options)) = Ok coverallz ->
  run argv =
    bind (preamble argv version options, Ok tt)
      (fun _ =>
         try_except (handler options coverallz (select_mode options))
           (fun e => is_KeyboardInterrupt e || is_Exception e)
           main_except)
  /\ (exists t,
        trace (run argv) =
          preamble argv version options
          ++ first_event options (select_mode options) :: t)
  /\ (forall other,
        In (first_event options other) (trace (run argv)) ->
        other = select_mode options)
  /\ (In (first_event options Default) (trace (run argv))
      <-> no_action options).
Proof.
  intros Hv Hd Hc.
  pose proof (main_reaches_dispatch argv version options coverallz Hv Hd Hc)
    as Hrun.
  assert (Htrace :
    trace (run argv) =
      preamble argv version options
      ++ trace (handler options coverallz (select_mode options))
      ++ match outcome (handler options coverallz (select_mode options)) with
         | Ok _ => []
         | Raise e =>
             if is_KeyboardInterrupt e || is_Exception e
             then trace (main_except e) else []
         end).
  { rewrite Hrun, bind_ok, trace_try. reflexivity. }
  assert (Hstart : exists t,
    trace (run argv) =
      preamble argv version options
      ++ first_event options (select_mode options) :: t).
  { destruct (handler_starts Obj api_merge api_wear api_save_report
                api_submit_report api_parallel_finish read_file
                options coverallz (select_mode options)) as (t & Ht).
    rewrite Htrace, Ht. cbn [app]. eexists. reflexivity. }
  assert (Honly : forall other,
    In (first_event options other) (trace (run argv)) ->
    other = select_mode options).
  { intros other Hin. rewrite Htrace in Hin.
    apply in_app_or in Hin. destruct Hin as [Hin | Hin].
    - destruct (preamble_starts_no_handler _ _ _ _ Hin).
    - apply in_app_or in Hin. destruct Hin as [Hin | Hin].
      + exact (handler_excludes Obj api_merge api_wear api_save_report
                 api_submit_report api_parallel_finish read_file
                 options coverallz (select_mode options) other Hin).
      + destruct (outcome (handler options coverallz (select_mode options)))
          as [u|e]; [destruct Hin |].
        destruct (is_KeyboardInterrupt e || is_Exception e); [|destruct Hin].
        destruct (except_starts_no_handler _ _ _ Hin). }
  split; [exact Hrun |]. split; [exact Hstart |]. split; [exact Honly |].
  rewrite <- select_mode_default. split.
  - intros Hin. symmetry. exact (Honly Default Hin).
  - intros Hmode. destruct Hstart as (t & Ht). rewrite Ht, Hmode.
    apply in_or_app. right. left. reflexivity.
Qed.

End World.

(** C6, as stated, fails: [coveralls] without any option, in a world where
    no token is configured.  None of the five options is given, and the
    default handler does not run: the construction of the object raises, the
    error is logged, [main] exits with status one, and no handler has run at
    all. *)
Lemma main_runs_no_handler_without_token :
  no_action no_options
  /\ main_without_token no_options None =
       ([Version; Docopt None (lit "4.0.1"); AddHandler; SetLevel INFO;
         New true (Some (lit ".coveragerc")) None [] [];
         LogException "Error running coveralls: %s"
           (OtherException "CoverallsException")],
        Raise (SystemExit 1))
  /\ ~ In (first_event no_options Default)
          (trace (main_without_token no_options None))
  /\ existsb is_api_call (trace (main_without_token no_options None)) = false.
Proof.
  split; [unfold no_action; repeat split; reflexivity |].
  split; [vm_compute; reflexivity |].
  split; [|vm_compute; reflexivity].
  vm_compute. intros H.
  repeat (destruct H as [H | H]; [discriminate H |]). exact H.
Qed.

Lemma main_runs_exactly_one_handler_witness :
  (exists t,
     trace (main_in_good_world options_debug_merge None) =
       preamble None (lit "4.0.1") options_debug_merge
       ++ first_event options_debug_merge Merge :: t)
  /\ (In (first_event no_options Default)
         (trace (main_in_good_world no_options None))
      <-> no_action no_options).
Proof.
  split.
  - exact (proj1 (proj2
      (main_runs_exactly_one_handler unit
         (fun _ _ _ _ _ => Ok tt) (fun _ _ => Ok tt)
         (fun _ _ => Ok job_accepted)
         (fun _ _ => Ok tt) (fun _ _ => Ok tt) (fun _ => Ok tt)
         (Ok (lit "4.0.1")) (fun _ _ => Ok options_debug_merge)
         (fun _ => Ok (lit "{}"))
         None (lit "4.0.1") options_debug_merge tt
         eq_refl eq_refl eq_refl))).
  - exact (proj2 (proj2 (proj2
      (main_runs_exactly_one_handler unit
         (fun _ _ _ _ _ => Ok tt) (fun _ _ => Ok tt)
         (fun _ _ => Ok job_accepted)
         (fun _ _ => Ok tt) (fun _ _ => Ok tt) (fun _ => Ok tt)
         (Ok (lit "4.0.1")) (fun _ _ => Ok no_options)
         (fun _ => Ok (lit "{}"))
         None (lit "4.0.1") no_options tt
         eq_refl eq_refl eq_refl)))).
Defined.

End CliRun.
